(** * pyrogram/client/methods/messages/download_media.py

    A shallow embedding of [DownloadMedia.download_media]: the decoding of a
    file identifier into a [FileData] descriptor, the resolution of the
    target directory and file name, and the hand-over of the request to the
    download queue, with the blocking and the non-blocking return. *)

From Stdlib Require Import ZArith List String Ascii Lia DecimalString.
From Stdlib.Strings Require Import Byte.
From stdpp Require Import base option list gmap strings.

Local Open Scope string_scope.
Local Open Scope Z_scope.
Local Open Scope list_scope.

(** ** Exceptions and results *)

(** The exception classes that can leave [download_media].  The first three
    are the ones named by the handler at line 172. *)
Inductive exn : Type :=
  | AssertionError
  | BinasciiError
  | StructError
  | FileIdInvalid
  | ValueError (msg : string)
  | UnicodeDecodeError
  | IndexError
  | KeyError (key : Z)
  | OtherError (name : string).

Inductive result (A : Type) : Type :=
  | Ok (a : A)
  | Raise (e : exn).
Arguments Ok {A} a.
Arguments Raise {A} e.

Definition bind {A B : Type} (r : result A) (k : A -> result B) : result B :=
  match r with
  | Ok a => k a
  | Raise e => Raise e
  end.

Notation "x <- r ;; k" := (bind r (fun x => k))
  (at level 100, r at next level, right associativity).

(** [except (AssertionError, binascii.Error, struct.error)]: none of the other
    classes above derives from one of these three. *)
Definition caught (e : exn) : bool :=
  match e with
  | AssertionError | BinasciiError | StructError => true
  | _ => false
  end.

(** The exceptions of [datetime.fromtimestamp]: a year outside 1 to 9999
    ([ValueError]), a timestamp outside what the platform's time functions
    take ([OverflowError]), a failure of those functions ([OSError]). *)
Inductive date_error : Type :=
  | YearOutOfRange (msg : string)
  | TimestampOverflow
  | LocaltimeFailure.

Definition date_exn (e : date_error) : exn :=
  match e with
  | YearOutOfRange msg => ValueError msg
  | TimestampOverflow => OtherError "OverflowError"
  | LocaltimeFailure => OtherError "OSError"
  end.

(** [try: body / except (...): raise FileIdInvalid from None] *)
Definition try_decode {A : Type} (body : result A) : result A :=
  match body with
  | Ok a => Ok a
  | Raise e => if caught e then Raise FileIdInvalid else Raise e
  end.

(** ** Bytes and [struct.unpack] *)

Definition bytes := list byte.

Definition byte_val (b : byte) : Z := Z.of_N (Byte.to_N b).

(** Little-endian value of a run of bytes, unsigned. *)
Fixpoint le_unsigned (bs : bytes) : Z :=
  match bs with
  | [] => 0
  | b :: bs' => byte_val b + 256 * le_unsigned bs'
  end.

(** Two's complement reading of an unsigned value of [w] bits. *)
Definition to_signed (w : Z) (u : Z) : Z :=
  if u <? 2 ^ (w - 1) then u else u - 2 ^ w.

(** The format characters used in this file, in the standard sizes that the
    prefix [<] selects: no alignment padding. *)
Inductive fmt_code : Type := fmt_i | fmt_q | fmt_b | fmt_c.

Definition code_size (c : fmt_code) : nat :=
  match c with
  | fmt_i => 4
  | fmt_q => 8
  | fmt_b => 1
  | fmt_c => 1
  end%nat.

Fixpoint calcsize (fmt : list fmt_code) : nat :=
  match fmt with
  | [] => 0
  | c :: fmt' => code_size c + calcsize fmt'
  end%nat.

Inductive value : Type :=
  | VInt (z : Z)
  | VBytes (bs : bytes).

Definition unpack_field (c : fmt_code) (bs : bytes) : value :=
  match c with
  | fmt_i => VInt (to_signed 32 (le_unsigned bs))
  | fmt_q => VInt (to_signed 64 (le_unsigned bs))
  | fmt_b => VInt (to_signed 8 (le_unsigned bs))
  | fmt_c => VBytes bs
  end.

Fixpoint unpack_fields (fmt : list fmt_code) (bs : bytes) : list value :=
  match fmt with
  | [] => []
  | c :: fmt' =>
      unpack_field c (take (code_size c) bs)
        :: unpack_fields fmt' (drop (code_size c) bs)
  end.

(** [struct.unpack(fmt, buffer)]: the buffer must have exactly the size of
    the format, else [struct.error]. *)
Definition struct_unpack (fmt : list fmt_code) (bs : bytes) : result (list value) :=
  if Nat.eqb (length bs) (calcsize fmt)
  then Ok (unpack_fields fmt bs)
  else Raise StructError.

Definition fmt_iiqqib : list fmt_code := [fmt_i; fmt_i; fmt_q; fmt_q; fmt_i; fmt_b].
Definition fmt_iiqqc : list fmt_code := [fmt_i; fmt_i; fmt_q; fmt_q; fmt_c].
Definition fmt_iiqq : list fmt_code := [fmt_i; fmt_i; fmt_q; fmt_q].

(** [decoded[0]]: indexing [bytes] gives the integer value of one byte. *)
Definition index0 (decoded : bytes) : result Z :=
  match decoded with
  | [] => Raise IndexError
  | b :: _ => Ok (byte_val b)
  end.

(** [bytes.decode()] of a one-byte value, UTF-8: bytes from 0x80 on are not a
    complete sequence. *)
Definition bytes_decode (bs : bytes) : result string :=
  match bs with
  | [b] =>
      if byte_val b <? 128
      then Ok (String (Ascii.ascii_of_byte b) EmptyString)
      else Raise UnicodeDecodeError
  | [] => Ok EmptyString
  | _ => Raise UnicodeDecodeError
  end.

(** [x in (a, b, ...)] on integers. *)
Definition int_in (x : Z) (xs : list Z) : bool := existsb (Z.eqb x) xs.

(** Truth value of a string and of an optional string. *)
Definition str_truthy (s : string) : bool :=
  match s with
  | EmptyString => false
  | String _ _ => true
  end.

(** [a or b] where [a] is a string; [a or b] where [a] may be [None]. *)
Definition str_or (a b : string) : string := if str_truthy a then a else b.

Definition opt_str_or (a : option string) (b : string) : string :=
  match a with
  | Some s => str_or s b
  | None => b
  end.

(** ** [os.path] on POSIX *)

Definition sep : ascii := "/"%char.

(** [p[:i], p[i:]] with [i = p.rfind("/") + 1]. *)
Fixpoint cut_last_sep (p : string) : string * string :=
  match p with
  | EmptyString => (EmptyString, EmptyString)
  | String c p' =>
      let (h, t) := cut_last_sep p' in
      if str_truthy h then (String c h, t)
      else if Ascii.eqb c sep then (String c EmptyString, p')
      else (EmptyString, String c p')
  end.

(** [s.rstrip("/")] *)
Fixpoint rstrip_sep (s : string) : string :=
  match s with
  | EmptyString => EmptyString
  | String c s' =>
      let r := rstrip_sep s' in
      if Ascii.eqb c sep && negb (str_truthy r) then EmptyString else String c r
  end.

(** [os.path.split]: a head of slashes only is kept as it is. *)
Definition os_path_split (p : string) : string * string :=
  let (head, tail) := cut_last_sep p in
  (if str_truthy (rstrip_sep head) then rstrip_sep head else head, tail).

(** [os.path.isabs] *)
Definition os_path_isabs (s : string) : bool :=
  match s with
  | String c _ => Ascii.eqb c sep
  | EmptyString => false
  end.

(** [os.path.join] of two components. *)
Fixpoint ends_with_sep (s : string) : bool :=
  match s with
  | EmptyString => false
  | String c EmptyString => Ascii.eqb c sep
  | String _ s' => ends_with_sep s'
  end.

Definition os_path_join (a b : string) : string :=
  if os_path_isabs b then b
  else if negb (str_truthy a) || ends_with_sep a then a +:+ b
  else a +:+ "/" +:+ b.

(** ** The descriptor and the references *)

(** Modelled from the spec: [FileData] (pyrogram.client.ext), whose class
    declaration is not part of this file.  It is built with keyword arguments
    only and every field that is not given is absent ([None]). *)
Record FileData : Type := mkFileData {
  media_type : option Z;
  dc_id : option Z;
  document_id : option Z;
  access_hash : option Z;
  thumb_size : option string;
  peer_id : option Z;
  volume_id : option Z;
  local_id : option Z;
  is_big : option bool;
  file_size : option Z;
  mime_type : option string;
  file_name : option string;
  date : option Z
}.

(** [FileData(file_name=..., file_size=..., mime_type=..., date=...)] *)
Definition FileData_meta (fname : option string) (fsize : option Z)
    (mime : option string) (dt : option Z) : FileData :=
  {| media_type := None; dc_id := None; document_id := None;
     access_hash := None; thumb_size := None; peer_id := None;
     volume_id := None; local_id := None; is_big := None;
     file_size := fsize; mime_type := mime; file_name := fname; date := dt |}.

(** [get_existing_attributes()] keeps the entries of [data.__dict__] that
    are not [None].  Passed back as [**kwargs] to [FileData], whose other
    fields default to [None], they give the fields of [data] again.  It is
    called on the descriptor of line 120, where the fields that the three
    branches name explicitly are all [None], so no keyword is given twice
    and the named fields are simply set on top. *)
Definition get_existing_attributes (data : FileData) : FileData := data.

(** An attribute of an object as [getattr(obj, name, default)] sees it. *)
Inductive attr (A : Type) : Type :=
  | Missing
  | Has (v : option A).
Arguments Missing {A}.
Arguments Has {A} v.

Definition getattr {A : Type} (a : attr A) (default : option A) : option A :=
  match a with
  | Missing => default
  | Has v => v
  end.

(** A media object ([message.audio], [message.video], ...). *)
Record Media : Type := mkMedia {
  file_id : string;
  media_file_name : attr string;
  media_file_size : attr Z;
  media_mime_type : attr string;
  media_date : attr Z
}.

Inductive kind : Type :=
  | audio | document | photo | sticker | animation | video | voice | video_note.

Definition available_media : list kind :=
  [audio; document; photo; sticker; animation; video; voice; video_note].

(** A [pyrogram.Message], as far as this method reads it. *)
Record Message : Type := mkMessage {
  msg_audio : option Media;
  msg_document : option Media;
  msg_photo : option Media;
  msg_sticker : option Media;
  msg_animation : option Media;
  msg_video : option Media;
  msg_voice : option Media;
  msg_video_note : option Media
}.

(** [getattr(message, kind, None)] *)
Definition getattr_kind (message : Message) (k : kind) : option Media :=
  match k with
  | audio => msg_audio message
  | document => msg_document message
  | photo => msg_photo message
  | sticker => msg_sticker message
  | animation => msg_animation message
  | video => msg_video message
  | voice => msg_voice message
  | video_note => msg_video_note message
  end.

(** The first argument of [download_media]. *)
Inductive reference : Type :=
  | RefMessage (message : Message)
  | RefMedia (media : Media)
  | RefStr (file_id_str : string).

(** ** The client, the queue and the outcome of a call *)

(** What [download_media] takes from outside this file. *)
Record Env : Type := mkEnv {
  (** [utils.decode] *)
  decode : string -> result bytes;
  (** [self.MEDIA_TYPE_ID] *)
  MEDIA_TYPE_ID : gmap Z string;
  (** [self.guess_extension] *)
  guess_extension : option string -> option string;
  (** [self.PARENT_DIR] *)
  PARENT_DIR : string;
  (** the value [self.rnd_id()] gives in this call *)
  rnd_id : Z;
  (** the value [time.time()] gives in this call, in whole seconds *)
  time_time : Z;
  (** [datetime.fromtimestamp(t).strftime("%Y-%m-%d_%H-%M-%S")] *)
  strftime : Z -> string;
  (** the exception that [datetime.fromtimestamp(t)] raises, if it raises:
      [strftime] gives the text for the timestamps on which it does not *)
  fromtimestamp_error : Z -> option date_error
}.

(** The [directory] of a request: the caller's string, or the [Path] made by
    [self.PARENT_DIR / rel]. *)
Inductive directory_t : Type :=
  | DirStr (s : string)
  | DirPath (parent rel : string).

(** Opaque Python values: the progress callback and its arguments. *)
Inductive pyval : Type :=
  | PyNone
  | PyInt (z : Z)
  | PyStr (s : string)
  | PyCallable (ident : nat).

(** The tuple put on [self.download_queue].  [req_done] and [req_path] are
    the identities of the [asyncio.Event] and of the one-element list. *)
Record Request : Type := mkRequest {
  req_data : FileData;
  req_directory : directory_t;
  req_file_name : string;
  req_done : nat;
  req_progress : pyval;
  req_progress_args : list pyval;
  req_path : nat
}.

(** The shared objects: the queue, the events (set or not) and the
    one-element lists (their element [path[0]]). *)
Record World : Type := mkWorld {
  download_queue : list Request;
  events : list bool;
  paths : list (option string)
}.

(** How a call stands when it leaves the code of this file: an exception, a
    returned value, or suspended in [await done.wait()] with [return path[0]]
    still to run. *)
Inductive outcome : Type :=
  | Raised (e : exn)
  | Returned (v : option string)
  | Awaiting (done path : nat).

(** ** [download_media] *)

Definition DEFAULT_DOWNLOAD_DIR : string := "downloads/".

Definition error_message : string :=
  "This message doesn't contain any downloadable media".

(** Lines 100-109: the [for ... else] over [available_media], and the media
    taken as given when the argument is no [Message]. *)
Fixpoint first_media (kinds : list kind) (message : Message) : option Media :=
  match kinds with
  | [] => None
  | k :: kinds' =>
      match getattr_kind message k with
      | Some media => Some media
      | None => first_media kinds' message
      end
  end.

Definition select_media (message : reference) : result (string + Media) :=
  match message with
  | RefMessage m =>
      match first_media available_media m with
      | Some media => Ok (inr media)
      | None => Raise (ValueError error_message)
      end
  | RefMedia media => Ok (inr media)
  | RefStr s => Ok (inl s)
  end.

(** Lines 111-125: the identifier string and the descriptor with the
    caller's metadata. *)
Definition initial_data (media : string + Media) : string * FileData :=
  match media with
  | inl s => (s, FileData_meta None None None None)
  | inr m =>
      (file_id m,
       FileData_meta
         (getattr (media_file_name m) (Some ""))
         (getattr (media_file_size m) None)
         (getattr (media_mime_type m) None)
         (getattr (media_date m) None))
  end.

(** Lines 131-171, the body of the [try]. *)
Definition decode_body (env : Env) (file_id_str : string) (data : FileData)
    : result FileData :=
  decoded <- decode env file_id_str ;;
  mt <- index0 decoded ;;
  if mt =? 1 then
    unpacked <- struct_unpack fmt_iiqqib decoded ;;
    match tail unpacked with
    | [VInt dc; VInt peer; VInt volume; VInt loc; VInt big] =>
        let kw := get_existing_attributes data in
        Ok {| media_type := Some mt;
              dc_id := Some dc;
              document_id := document_id kw;
              access_hash := access_hash kw;
              thumb_size := thumb_size kw;
              peer_id := Some peer;
              volume_id := Some volume;
              local_id := Some loc;
              is_big := Some (negb (big =? 0));
              file_size := file_size kw;
              mime_type := mime_type kw;
              file_name := file_name kw;
              date := date kw |}
    | _ => Raise (OtherError "TypeError")
    end
  else if int_in mt [0; 2; 14] then
    unpacked <- struct_unpack fmt_iiqqc decoded ;;
    match tail unpacked with
    | [VInt dc; VInt doc; VInt hash; VBytes thumb] =>
        let kw := get_existing_attributes data in
        thumb_str <- bytes_decode thumb ;;
        Ok {| media_type := Some mt;
              dc_id := Some dc;
              document_id := Some doc;
              access_hash := Some hash;
              thumb_size := Some thumb_str;
              peer_id := peer_id kw;
              volume_id := volume_id kw;
              local_id := local_id kw;
              is_big := is_big kw;
              file_size := file_size kw;
              mime_type := mime_type kw;
              file_name := file_name kw;
              date := date kw |}
    | _ => Raise (OtherError "TypeError")
    end
  else if int_in mt [3; 4; 5; 8; 9; 10; 13] then
    unpacked <- struct_unpack fmt_iiqq decoded ;;
    match tail unpacked with
    | [VInt dc; VInt doc; VInt hash] =>
        let kw := get_existing_attributes data in
        Ok {| media_type := Some mt;
              dc_id := Some dc;
              document_id := Some doc;
              access_hash := Some hash;
              thumb_size := thumb_size kw;
              peer_id := peer_id kw;
              volume_id := volume_id kw;
              local_id := local_id kw;
              is_big := is_big kw;
              file_size := file_size kw;
              mime_type := mime_type kw;
              file_name := file_name kw;
              date := date kw |}
    | _ => Raise (OtherError "TypeError")
    end
  else Raise (ValueError ("Unknown media type: " +:+ file_id_str)).

(** Lines 130-173: the [try] with its handler. *)
Definition decode_file_id (env : Env) (file_id_str : string) (data : FileData)
    : result FileData :=
  try_decode (decode_body env file_id_str data).

(** Lines 92-173: from the argument to the descriptor. *)
Definition describe (env : Env) (message : reference) : result FileData :=
  media <- select_media message ;;
  let (file_id_str, data) := initial_data media in
  decode_file_id env file_id_str data.

(** Lines 178-182: the directory and the file name before any synthesis. *)
Definition resolve_target (env : Env) (data : FileData) (fname : string)
    : directory_t * string :=
  let (directory, fname) := os_path_split fname in
  let fname := str_or fname (opt_str_or (file_name data) "") in
  if negb (os_path_isabs fname)
  then (DirPath (PARENT_DIR env) (str_or directory DEFAULT_DOWNLOAD_DIR), fname)
  else (DirStr directory, fname).

(** Line 184: [self.MEDIA_TYPE_ID[data.media_type]] *)
Definition media_type_label (env : Env) (data : FileData) : result string :=
  match media_type data with
  | Some t =>
      match MEDIA_TYPE_ID env !! t with
      | Some label => Ok label
      | None => Raise (KeyError t)
      end
  | None => Raise (OtherError "KeyError")
  end.

(** Lines 189-202: the extension of a synthesized name. *)
Definition choose_extension (mt : option Z) (guessed_extension : option string)
    : string :=
  match mt with
  | Some t =>
      if int_in t [0; 1; 2; 14] then ".jpg"
      else if t =? 3 then opt_str_or guessed_extension ".ogg"
      else if int_in t [4; 10; 13] then opt_str_or guessed_extension ".mp4"
      else if t =? 5 then opt_str_or guessed_extension ".zip"
      else if t =? 8 then opt_str_or guessed_extension ".webp"
      else if t =? 9 then opt_str_or guessed_extension ".mp3"
      else ".unknown"
  | None => ".unknown"
  end.

(** [data.date or time.time()] *)
Definition date_or_now (env : Env) (data : FileData) : Z :=
  match date data with
  | Some d => if d =? 0 then time_time env else d
  | None => time_time env
  end.

(** ["{}".format(n)] for an integer. *)
Definition str_of_int (n : Z) : string := NilZero.string_of_int (Z.to_int n).

(** Lines 186-209: the name synthesized when no file name is at hand, for
    a timestamp that [datetime.fromtimestamp] accepts; [synthesize_checked]
    below has the other case. *)
Definition synthesize (env : Env) (data : FileData) (media_type_str : string)
    : string :=
  let guessed_extension := guess_extension env (mime_type data) in
  let extension := choose_extension (media_type data) guessed_extension in
  media_type_str +:+ "_" +:+ strftime env (date_or_now env data) +:+ "_"
    +:+ str_of_int (rnd_id env) +:+ extension.

(** Lines 186-209 as they run: [datetime.fromtimestamp] at line 206 raises
    on a timestamp it cannot represent, and the name is formatted
    otherwise. *)
Definition synthesize_checked (env : Env) (data : FileData)
    (media_type_str : string) : result string :=
  match fromtimestamp_error env (date_or_now env data) with
  | Some e => Raise (date_exn e)
  | None => Ok (synthesize env data media_type_str)
  end.

(** [asyncio.Event()] and [[None]]: fresh objects at the end of the store. *)
Definition alloc_event (w : World) : nat * World :=
  (length (events w),
   {| download_queue := download_queue w;
      events := events w ++ [false];
      paths := paths w |}).

Definition alloc_path (w : World) : nat * World :=
  (length (paths w),
   {| download_queue := download_queue w;
      events := events w;
      paths := paths w ++ [None] |}).

(** [self.download_queue.put_nowait(item)] on the client's unbounded queue. *)
Definition put_nowait (item : Request) (w : World) : World :=
  {| download_queue := download_queue w ++ [item];
     events := events w;
     paths := paths w |}.

(** [path[0]] *)
Definition read_path (w : World) (path : nat) : option string :=
  match paths w !! path with
  | Some v => v
  | None => None
  end.

Definition is_set (w : World) (done : nat) : bool :=
  match events w !! done with
  | Some b => b
  | None => false
  end.

(** The whole method, up to its return or to its suspension at line 214. *)
Definition download_media (env : Env) (message : reference) (fname : string)
    (block : bool) (progress : pyval) (progress_args : list pyval) (w : World)
    : World * outcome :=
  match describe env message with
  | Raise e => (w, Raised e)
  | Ok data =>
      let (done, w) := alloc_event w in
      let (path, w) := alloc_path w in
      let (directory, fname) := resolve_target env data fname in
      match media_type_label env data with
      | Raise e => (w, Raised e)
      | Ok media_type_str =>
          match
            (if negb (str_truthy fname)
             then synthesize_checked env data media_type_str
             else Ok fname)
          with
          | Raise e => (w, Raised e)
          | Ok fname =>
              let w :=
                put_nowait
                  {| req_data := data; req_directory := directory;
                     req_file_name := fname; req_done := done;
                     req_progress := progress;
                     req_progress_args := progress_args;
                     req_path := path |} w in
              if block then (w, Awaiting done path)
              else (w, Returned (read_path w path))
          end
      end
  end.

(** The rest of a suspended call, lines 214-216: once the event is set the
    wait is over and [path[0]] is returned. *)
Definition resume (w : World) (o : outcome) : outcome :=
  match o with
  | Awaiting done path =>
      if is_set w done then Returned (read_path w path) else Awaiting done path
  | _ => o
  end.

(** ** The collaborators, as the specification describes them *)

(** Modelled from the spec: the transfer worker, which is not part of this
    file.  It writes the final path (or the absent value) into the result
    slot of the request and then raises its completion signal. *)
Definition worker_finish (req : Request) (res : option string) (w : World)
    : World :=
  {| download_queue := download_queue w;
     events := <[req_done req := true]> (events w);
     paths := <[req_path req := res]> (paths w) |}.

(** Modelled from the spec: the text stage of [utils.decode], which is not
    part of this file: a URL-safe base64 alphabet, tolerant of missing
    padding.  A character outside the alphabet or an impossible length is a
    [binascii.Error]. *)
Definition b64_value (c : ascii) : option Z :=
  let n := Z.of_N (N_of_ascii c) in
  if (65 <=? n) && (n <=? 90) then Some (n - 65)
  else if (97 <=? n) && (n <=? 122) then Some (n - 71)
  else if (48 <=? n) && (n <=? 57) then Some (n + 4)
  else if n =? 45 then Some 62
  else if n =? 95 then Some 63
  else None.

Fixpoint strip_padding (s : string) : string :=
  match s with
  | EmptyString => EmptyString
  | String c s' =>
      let r := strip_padding s' in
      if Ascii.eqb c "="%char && negb (str_truthy r) then EmptyString
      else String c r
  end.

Fixpoint sextets (s : string) : result (list Z) :=
  match s with
  | EmptyString => Ok []
  | String c s' =>
      match b64_value c with
      | Some v => vs <- sextets s' ;; Ok (v :: vs)
      | None => Raise BinasciiError
      end
  end.

Definition byte_of_Z (z : Z) : byte :=
  match Byte.of_N (Z.to_N (z mod 256)) with
  | Some b => b
  | None => x00
  end.

Fixpoint octets (vs : list Z) : result bytes :=
  match vs with
  | [] => Ok []
  | [_] => Raise BinasciiError
  | [a; b] => Ok [byte_of_Z (a * 4 + b / 16)]
  | [a; b; c] => Ok [byte_of_Z (a * 4 + b / 16); byte_of_Z (b * 16 + c / 4)]
  | a :: b :: c :: d :: vs' =>
      bs <- octets vs' ;;
      Ok (byte_of_Z (a * 4 + b / 16) :: byte_of_Z (b * 16 + c / 4)
            :: byte_of_Z (c * 64 + d) :: bs)
  end.

(** Modelled from the spec: the text stage as a whole, padding dropped,
    then four characters to three bytes. *)
Definition urlsafe_b64decode (s : string) : result bytes :=
  vs <- sextets (strip_padding s) ;;
  octets vs.

(** Modelled from the spec: the timestamp formatted to second precision, for
    a process whose local time is UTC. *)
Definition digits2 (n : Z) : string :=
  (if n <? 10 then "0" else "") +:+ str_of_int n.

Definition digits4 (n : Z) : string :=
  (if n <? 10 then "000" else if n <? 100 then "00"
   else if n <? 1000 then "0" else "") +:+ str_of_int n.

Definition civil_from_days (days : Z) : Z * Z * Z :=
  let z := days + 719468 in
  let era := z / 146097 in
  let doe := z - era * 146097 in
  let yoe := (doe - doe / 1460 + doe / 36524 - doe / 146096) / 365 in
  let doy := doe - (365 * yoe + yoe / 4 - yoe / 100) in
  let mp := (5 * doy + 2) / 153 in
  let d := doy - (153 * mp + 2) / 5 + 1 in
  let m := if mp <? 10 then mp + 3 else mp - 9 in
  let y := yoe + era * 400 + (if m <=? 2 then 1 else 0) in
  (y, m, d).

(** Modelled from the spec: ["%Y-%m-%d_%H-%M-%S"] of a timestamp in UTC. *)
Definition utc_strftime (t : Z) : string :=
  let '(y, m, d) := civil_from_days (t / 86400) in
  let s := t mod 86400 in
  digits4 y +:+ "-" +:+ digits2 m +:+ "-" +:+ digits2 d +:+ "_"
    +:+ digits2 (s / 3600) +:+ "-" +:+ digits2 (s mod 3600 / 60) +:+ "-"
    +:+ digits2 (s mod 60).




(** [datetime.fromtimestamp] for a process whose local time is UTC: the
    years 1 to 9999 are accepted, the others are a [ValueError]. *)
Definition utc_fromtimestamp_error (t : Z) : option date_error :=
  if (t <? -62135596800) || (253402300800 <=? t)
  then Some (YearOutOfRange
               ("year " +:+ str_of_int (fst (fst (civil_from_days (t / 86400))))
                  +:+ " is out of range"))
  else None.

(** Modelled from the spec: the label table [self.MEDIA_TYPE_ID], which is
    not part of this file: one label per group of tags, "photo" for the
    photo-like tags.  The two audio-like tags take the names of the media
    kinds [voice] and [audio] of [available_media]. *)
Definition sample_MEDIA_TYPE_ID : gmap Z string :=
  list_to_map
    [(0, "photo"); (1, "photo"); (2, "photo"); (14, "photo");
     (3, "voice"); (9, "audio");
     (4, "video"); (10, "video"); (13, "video");
     (5, "document"); (8, "sticker")].

(** Modelled from the spec: the guess of an extension from a MIME type,
    which is not part of this file, on a short table. *)
Definition sample_guess_extension (mime : option string) : option string :=
  match mime with
  | Some m =>
      if String.eqb m "image/png" then Some ".png"
      else if String.eqb m "audio/mpeg" then Some ".mp3"
      else if String.eqb m "video/webm" then Some ".webm"
      else None
  | None => None
  end.

(** The client of the examples. *)
Definition sample_env : Env :=
  {| decode := urlsafe_b64decode;
     MEDIA_TYPE_ID := sample_MEDIA_TYPE_ID;
     guess_extension := sample_guess_extension;
     PARENT_DIR := "/srv/bot";
     rnd_id := 6148914691236517205;
     time_time := 1556668800;
     strftime := utc_strftime;
     fromtimestamp_error := utc_fromtimestamp_error |}.

Definition empty_world : World :=
  {| download_queue := []; events := []; paths := [] |}.


(** ** Vocabulary of the statements *)

(** The two error kinds of the method. *)
Definition NoDownloadableMedia : exn := ValueError error_message.
Definition InvalidIdentifier : exn := FileIdInvalid.

(** The recognized media-type tags. *)
Definition recognized_tags : list Z := [0; 1; 2; 3; 4; 5; 8; 9; 10; 13; 14].

(** The leading field of the record as the three formats lay it out, the
    value of [unpacked[0]]: four bytes, little-endian, signed. *)
Definition discriminant (decoded : bytes) : option Z :=
  if (4 <=? length decoded)%nat
  then Some (to_signed 32 (le_unsigned (take 4 decoded)))
  else None.

(** The tag of a decoded identifier: the first byte, which is what the
    method tests, or the whole leading field when it is a value of one
    byte. *)
Definition has_tag (decoded : bytes) (mt : Z) : Prop :=
  index0 decoded = Ok mt \/
  (discriminant decoded = Some mt /\ 0 <= mt < 256).

(** The record width that goes with a tag: the tag of 4 bytes, then the
    fields of 4 or 8 bytes, then one byte for the flag or the character. *)
Definition record_width (mt : Z) : option nat :=
  if mt =? 1 then Some 29%nat
  else if int_in mt [0; 2; 14] then Some 25%nat
  else if int_in mt [3; 4; 5; 8; 9; 10; 13] then Some 24%nat
  else None.

(** The identifier string that a reference carries. *)
Definition identifier_of (message : reference) (s : string) : Prop :=
  exists media, select_media message = Ok media /\ fst (initial_data media) = s.


(** A failure of the record stage: the decoded length is not the width that
    the tag selects.  The tag is the first byte, which is what the method
    tests, or the whole leading field when that is a recognized tag. *)
Definition binary_stage_failure (env : Env) (s : string) : Prop :=
  exists decoded mt width,
    decode env s = Ok decoded /\
    (index0 decoded = Ok mt \/ discriminant decoded = Some mt) /\
    record_width mt = Some width /\
    length decoded <> width.

(** The exception that stops a call between the label and the queue: none
    when a file name is at hand, and otherwise the one that line 206 raises
    on the date of the descriptor, or on the current time when it has no
    date. *)
Definition name_error (env : Env) (data : FileData) (fname : string)
    : option exn :=
  if str_truthy (snd (resolve_target env data fname)) then None
  else match fromtimestamp_error env (date_or_now env data) with
       | Some e => Some (date_exn e)
       | None => None
       end.

(** The request that a call puts on the queue once the descriptor [data] and
    the label [media_type_str] are known. *)
Definition request_of (env : Env) (data : FileData) (media_type_str : string)
    (fname : string) (progress : pyval) (progress_args : list pyval)
    (w : World) : Request :=
  {| req_data := data;
     req_directory := fst (resolve_target env data fname);
     req_file_name :=
       if str_truthy (snd (resolve_target env data fname))
       then snd (resolve_target env data fname)
       else synthesize env data media_type_str;
     req_done := length (events w);
     req_progress := progress;
     req_progress_args := progress_args;
     req_path := length (paths w) |}.

(** The three layouts of the record, one per group of tags. *)
Inductive variant : Type :=
  | PhotoLocation
  | ThumbnailLocation
  | DocumentLocation.

Definition variant_of (mt : Z) : option variant :=
  if mt =? 1 then Some PhotoLocation
  else if int_in mt [0; 2; 14] then Some ThumbnailLocation
  else if int_in mt [3; 4; 5; 8; 9; 10; 13] then Some DocumentLocation
  else None.

Definition present {A : Type} (o : option A) : bool :=
  match o with
  | Some _ => true
  | None => false
  end.

(** Which of the variant fields a descriptor has, in the order [dc_id],
    [peer_id], [volume_id], [local_id], [is_big], [document_id],
    [access_hash], [thumb_size]. *)
Definition populated (data : FileData) : list bool :=
  [present (dc_id data); present (peer_id data); present (volume_id data);
   present (local_id data); present (is_big data);
   present (document_id data); present (access_hash data);
   present (thumb_size data)].

(** The fields that belong to each variant, in the same order. *)
Definition shape (v : variant) : list bool :=
  match v with
  | PhotoLocation => [true; true; true; true; true; false; false; false]
  | ThumbnailLocation => [true; false; false; false; false; true; true; true]
  | DocumentLocation => [true; false; false; false; false; true; true; false]
  end.

(** The integer of format [c] that starts at byte [off] of the record. *)
Definition int_field (c : fmt_code) (off : nat) (decoded : bytes) : Z :=
  match unpack_field c (take (code_size c) (drop off decoded)) with
  | VInt z => z
  | VBytes _ => 0
  end.

(** A call has dispatched [req] when it leaves the queue one request
    longer, [req] being the new last one. *)
Definition dispatched (env : Env) (message : reference) (fname : string)
    (block : bool) (progress : pyval) (progress_args : list pyval) (w : World)
    (req : Request) : Prop :=
  download_queue
    (fst (download_media env message fname block progress progress_args w))
  = download_queue w ++ [req].

(** The target as the specification words it: the file name component of
    the caller's path, else the file name known to the descriptor, else the
    empty string; and the directory under the base directory, with the
    default download root when the caller's path has no directory. *)
Definition spec_file_name (callerPath : string) (data : FileData) : string :=
  let fileName := snd (os_path_split callerPath) in
  if String.eqb fileName ""
  then match file_name data with
       | Some known => known
       | None => ""
       end
  else fileName.

Definition spec_directory (env : Env) (callerPath : string) : directory_t :=
  let directory := fst (os_path_split callerPath) in
  DirPath (PARENT_DIR env)
    (if String.eqb directory "" then "downloads/" else directory).

(** The fixed default extension of each group of tags. *)
Definition default_extension (mt : Z) : option string :=
  if int_in mt [0; 1; 2; 14] then Some ".jpg"
  else if mt =? 3 then Some ".ogg"
  else if int_in mt [4; 10; 13] then Some ".mp4"
  else if mt =? 5 then Some ".zip"
  else if mt =? 8 then Some ".webp"
  else if mt =? 9 then Some ".mp3"
  else None.

(** The guess of an extension has failed when it gives nothing that
    counts as true: [None] or the empty string. *)
Definition guess_failed (guessed : option string) : bool :=
  match guessed with
  | Some e => negb (str_truthy e)
  | None => true
  end.

(** ** Inputs of the examples *)

Definition empty_message : Message :=
  {| msg_audio := None; msg_document := None; msg_photo := None;
     msg_sticker := None; msg_animation := None; msg_video := None;
     msg_voice := None; msg_video_note := None |}.

Definition id_tag7 : string := "BwAAAAIAAAB7AAAAAAAAAMgBAAAAAAAA".
Definition id_field257 : string := "AQEAAAIAAAB7AAAAAAAAAMgBAAAAAAAABwAAAAE".



Definition id_short_record : string := "AQAAAAIAAAB7AAAAAAAAAMgBAAAAAAAA".

Definition id_photo : string := "AQAAAAIAAAB7AAAAAAAAAMgBAAAAAAAABwAAAAE".

Definition photo_record : bytes :=
  byte_of_Z 1 :: byte_of_Z 0 :: byte_of_Z 0 :: byte_of_Z 0
    :: byte_of_Z 2 :: byte_of_Z 0 :: byte_of_Z 0 :: byte_of_Z 0
    :: byte_of_Z 123 :: repeat (byte_of_Z 0) 7
    ++ byte_of_Z 200 :: byte_of_Z 1 :: repeat (byte_of_Z 0) 6
    ++ byte_of_Z 7 :: byte_of_Z 0 :: byte_of_Z 0 :: byte_of_Z 0
    :: [byte_of_Z 1].

Definition id_document : string := "BQAAAAEAAAAqAAAAAAAAACsAAAAAAAAA".

Definition report_media : Media :=
  {| file_id := id_document;
     media_file_name := Has (Some "report.pdf");
     media_file_size := Has (Some 52311);
     media_mime_type := Has (Some "application/pdf");
     media_date := Has (Some 1546300800) |}.

Definition report_data : FileData :=
  {| media_type := Some 5; dc_id := Some 1; document_id := Some 42;
     access_hash := Some 43; thumb_size := None; peer_id := None;
     volume_id := None; local_id := None; is_big := None;
     file_size := Some 52311; mime_type := Some "application/pdf";
     file_name := Some "report.pdf"; date := Some 1546300800 |}.

Definition two_media_message : Message :=
  {| msg_audio := None;
     msg_document := Some report_media;
     msg_photo := None;
     msg_sticker := None;
     msg_animation := None;
     msg_video :=
       Some {| file_id := "BAAAAAEAAAAqAAAAAAAAACsAAAAAAAAA";
               media_file_name := Missing;
               media_file_size := Has None;
               media_mime_type := Has (Some "video/webm");
               media_date := Has None |};
     msg_voice := None;
     msg_video_note := None |}.

Definition id_thumbnailed_photo : string := "AgAAAAQAAADpAwAAAAAAALP_________eA".
Definition id_voice : string := "AwAAAAIAAACIEwAAAAAAAPf_________".
Definition id_audio : string := "CQAAAAIAAACJEwAAAAAAAPb_________".

Definition png_photo : Media :=
  {| file_id := id_thumbnailed_photo;
     media_file_name := Missing;
     media_file_size := Has (Some 1024);
     media_mime_type := Has (Some "image/png");
     media_date := Has (Some 1546300800) |}.

Definition png_photo_data : FileData :=
  {| media_type := Some 2; dc_id := Some 4; document_id := Some 1001;
     access_hash := Some (-77); thumb_size := Some "x"; peer_id := None;
     volume_id := None; local_id := None; is_big := None;
     file_size := Some 1024; mime_type := Some "image/png";
     file_name := Some ""; date := Some 1546300800 |}.

Definition webm_voice : Media :=
  {| file_id := id_voice;
     media_file_name := Has None;
     media_file_size := Has None;
     media_mime_type := Has (Some "video/webm");
     media_date := Has (Some 1546300800) |}.

Definition webm_voice_data : FileData :=
  {| media_type := Some 3; dc_id := Some 2; document_id := Some 5000;
     access_hash := Some (-9); thumb_size := None; peer_id := None;
     volume_id := None; local_id := None; is_big := None;
     file_size := None; mime_type := Some "video/webm";
     file_name := None; date := Some 1546300800 |}.

Definition unknown_mime_voice : Media :=
  {| file_id := id_voice;
     media_file_name := Has None;
     media_file_size := Has (Some 20480);
     media_mime_type := Has (Some "application/x-unknown");
     media_date := Has (Some 1546300800) |}.

Definition unknown_mime_voice_data : FileData :=
  {| media_type := Some 3; dc_id := Some 2; document_id := Some 5000;
     access_hash := Some (-9); thumb_size := None; peer_id := None;
     volume_id := None; local_id := None; is_big := None;
     file_size := Some 20480; mime_type := Some "application/x-unknown";
     file_name := None; date := Some 1546300800 |}.

Definition unknown_mime_audio : Media :=
  {| file_id := id_audio;
     media_file_name := Has None;
     media_file_size := Has (Some 1000);
     media_mime_type := Has (Some "application/x-unknown");
     media_date := Has (Some 1546300800) |}.

Definition unknown_mime_audio_data : FileData :=
  {| media_type := Some 9; dc_id := Some 2; document_id := Some 5001;
     access_hash := Some (-10); thumb_size := None; peer_id := None;
     volume_id := None; local_id := None; is_big := None;
     file_size := Some 1000; mime_type := Some "application/x-unknown";
     file_name := None; date := Some 1546300800 |}.

(** A client whose table labels tag 3 "audio", and a voice note dated 0. *)
Definition audio3_env : Env :=
  {| decode := urlsafe_b64decode;
     MEDIA_TYPE_ID := <[3 := "audio"]> sample_MEDIA_TYPE_ID;
     guess_extension := sample_guess_extension;
     PARENT_DIR := "/srv/bot";
     rnd_id := 6148914691236517205;
     time_time := 1556668800;
     strftime := utc_strftime;
     fromtimestamp_error := utc_fromtimestamp_error |}.

Definition epoch_voice : Media :=
  {| file_id := id_voice;
     media_file_name := Has None;
     media_file_size := Has None;
     media_mime_type := Has None;
     media_date := Has (Some 0) |}.

Definition epoch_voice_data : FileData :=
  {| media_type := Some 3; dc_id := Some 2; document_id := Some 5000;
     access_hash := Some (-9); thumb_size := None; peer_id := None;
     volume_id := None; local_id := None; is_big := None;
     file_size := None; mime_type := None;
     file_name := None; date := Some 0 |}.

(** The bytes that an identifier of the examples decodes to. *)
Definition record_of (s : string) : bytes :=
  match urlsafe_b64decode s with
  | Ok decoded => decoded
  | Raise _ => []
  end.

Definition id_thumbnail_ff : string := "AgAAAAQAAADpAwAAAAAAALP__________w".

(** The client of the examples without a label for tag 5. *)
Definition unlabelled_env : Env :=
  {| decode := urlsafe_b64decode;
     MEDIA_TYPE_ID := delete 5 sample_MEDIA_TYPE_ID;
     guess_extension := sample_guess_extension;
     PARENT_DIR := "/srv/bot";
     rnd_id := 6148914691236517205;
     time_time := 1556668800;
     strftime := utc_strftime;
     fromtimestamp_error := utc_fromtimestamp_error |}.

(** The client of the examples at another time, with another random id
    and with no guess of extensions. *)
Definition later_env : Env :=
  {| decode := urlsafe_b64decode;
     MEDIA_TYPE_ID := sample_MEDIA_TYPE_ID;
     guess_extension := fun _ => None;
     PARENT_DIR := "/srv/bot";
     rnd_id := -3;
     time_time := 1600000000;
     strftime := fun t => str_of_int t;
     fromtimestamp_error := fun _ => None |}.

Definition photo_data : FileData :=
  {| media_type := Some 1; dc_id := Some 2; document_id := None;
     access_hash := None; thumb_size := None; peer_id := Some 123;
     volume_id := Some 456; local_id := Some 7; is_big := Some true;
     file_size := None; mime_type := None; file_name := None;
     date := None |}.

Definition document_data : FileData :=
  {| media_type := Some 5; dc_id := Some 1; document_id := Some 42;
     access_hash := Some 43; thumb_size := None; peer_id := None;
     volume_id := None; local_id := None; is_big := None;
     file_size := None; mime_type := None; file_name := None;
     date := None |}.

(** The document record of [id_document] with other bytes 1 to 3, and
    the photo record of [id_photo] with the flag byte 0xff. *)
Definition id_document_high : string := "BQECAwEAAAAqAAAAAAAAACsAAAAAAAAA".
Definition id_photo_flag_ff : string := "AQAAAAIAAAB7AAAAAAAAAMgBAAAAAAAABwAAAP8".

(** A voice note dated in the year 10000. *)
Definition far_future_voice : Media :=
  {| file_id := id_voice;
     media_file_name := Has None;
     media_file_size := Has None;
     media_mime_type := Has None;
     media_date := Has (Some 253402300800) |}.

(** ** Basic facts *)

Lemma byte_val_range (b : byte) : 0 <= byte_val b < 256.
Proof.
  unfold byte_val. pose proof (Byte.to_N_bounded b) as H. lia.
Qed.

Lemma describe_identifier env message media :
  select_media message = Ok media ->
  describe env message =
    decode_file_id env (fst (initial_data media)) (snd (initial_data media)).
Proof.
  intros H. unfold describe. rewrite H. simpl.
  destruct (initial_data media); reflexivity.
Qed.

Lemma download_media_raised env message fname block progress args w e :
  describe env message = Raise e ->
  download_media env message fname block progress args w = (w, Raised e).
Proof.
  intros H. unfold download_media. rewrite H. reflexivity.
Qed.

Lemma download_media_dispatched env message fname block progress args w data label :
  describe env message = Ok data ->
  media_type_label env data = Ok label ->
  name_error env data fname = None ->
  download_media env message fname block progress args w =
    ({| download_queue :=
          download_queue w ++ [request_of env data label fname progress args w];
        events := events w ++ [false];
        paths := paths w ++ [None] |},
     if block
     then Awaiting (length (events w)) (length (paths w))
     else Returned None).
Proof.
  intros Hd Hl Hn. unfold download_media. rewrite Hd. simpl.
  unfold request_of, name_error, synthesize_checked in *.
  destruct (resolve_target env data fname) as [directory f] eqn:Ht.
  rewrite Hl. cbn [fst snd] in *.
  destruct (str_truthy f); cbn [negb].
  - destruct block; [reflexivity |].
    unfold read_path, put_nowait. simpl.
    rewrite list_lookup_middle by reflexivity. reflexivity.
  - destruct (fromtimestamp_error env (date_or_now env data)); [discriminate |].
    destruct block; [reflexivity |].
    unfold read_path, put_nowait. simpl.
    rewrite list_lookup_middle by reflexivity. reflexivity.
Qed.

(** The date of line 206 is refused: the event and the list exist, the
    queue is as it was. *)
Lemma download_media_name_raised env message fname block progress args w data label e :
  describe env message = Ok data ->
  media_type_label env data = Ok label ->
  name_error env data fname = Some e ->
  download_media env message fname block progress args w =
    ({| download_queue := download_queue w;
        events := events w ++ [false];
        paths := paths w ++ [None] |},
     Raised e).
Proof.
  intros Hd Hl Hn. unfold download_media. rewrite Hd. simpl.
  unfold name_error, synthesize_checked in *.
  destruct (resolve_target env data fname) as [directory f] eqn:Ht.
  rewrite Hl. cbn [fst snd] in *.
  destruct (str_truthy f); cbn [negb]; [discriminate |].
  destruct (fromtimestamp_error env (date_or_now env data)); [| discriminate].
  injection Hn as <-. reflexivity.
Qed.

Lemma download_media_label_raised env message fname block progress args w data e :
  describe env message = Ok data ->
  media_type_label env data = Raise e ->
  download_queue (fst (download_media env message fname block progress args w))
    = download_queue w /\
  snd (download_media env message fname block progress args w) = Raised e.
Proof.
  intros Hd Hl. unfold download_media. rewrite Hd. simpl.
  destruct (resolve_target env data fname). rewrite Hl. simpl. auto.
Qed.

(** Enter the body of the [try] once the decoded bytes and the tag are
    known. *)
Ltac enter_try Hdec Hidx :=
  unfold decode_file_id, decode_body;
  rewrite Hdec; cbn [bind]; rewrite Hidx; cbn [bind].

(** Close a goal in which the decoding is assumed to give a descriptor
    although [utils.decode] or [decoded[0]] has raised. *)
Ltac decoding_raised Hdata Hdec :=
  unfold decode_file_id, decode_body in Hdata;
  rewrite Hdec in Hdata; cbn [bind] in Hdata;
  repeat match goal with
  | Hidx : index0 _ = Raise _ |- _ =>
      rewrite Hidx in Hdata; cbn [bind] in Hdata; clear Hidx
  end;
  cbn [try_decode] in Hdata;
  match type of Hdata with
  | context [caught ?e] => destruct (caught e); discriminate
  end.

(** A leading field that is a value of one byte is that first byte: on a
    recognized tag the field and the byte the method tests agree. *)
Lemma index0_of_discriminant (decoded : bytes) (d : Z) :
  discriminant decoded = Some d ->
  0 <= d < 256 ->
  index0 decoded = Ok d.
Proof.
  unfold discriminant.
  destruct decoded as [| b0 [| b1 [| b2 [| b3 rest]]]]; simpl; try discriminate.
  intros H Hd. injection H as H.
  pose proof (byte_val_range b0). pose proof (byte_val_range b1).
  pose proof (byte_val_range b2). pose proof (byte_val_range b3).
  unfold to_signed in H. f_equal.
  destruct (Z.ltb_spec
    (byte_val b0 + 256 * (byte_val b1 + 256 * (byte_val b2 + 256 * (byte_val b3 + 256 * 0))))
    (2 ^ (32 - 1))); lia.
Qed.

Lemma has_tag_index0 (decoded : bytes) (mt : Z) :
  has_tag decoded mt -> index0 decoded = Ok mt.
Proof.
  intros [H | [H Hrange]]; [exact H |].
  exact (index0_of_discriminant decoded mt H Hrange).
Qed.


Lemma record_width_calcsize (mt : Z) (width : nat) :
  record_width mt = Some width ->
  width =
    if mt =? 1 then calcsize fmt_iiqqib
    else if int_in mt [0; 2; 14] then calcsize fmt_iiqqc
    else calcsize fmt_iiqq.
Proof.
  unfold record_width.
  destruct (mt =? 1); [intros [= <-]; reflexivity |].
  destruct (int_in mt [0; 2; 14]); [intros [= <-]; reflexivity |].
  destruct (int_in mt [3; 4; 5; 8; 9; 10; 13]); [intros [= <-]; reflexivity |].
  discriminate.
Qed.


(** An exception of [utils.decode] goes through the handler. *)
Lemma decode_raises env s data e :
  decode env s = Raise e ->
  decode_file_id env s data =
    Raise (if caught e then FileIdInvalid else e).
Proof.
  intros H. unfold decode_file_id, decode_body. rewrite H. cbn [bind try_decode].
  destruct (caught e); reflexivity.
Qed.

(** A tag outside the recognized set reaches the last branch. *)
Lemma unknown_tag_branch env s data decoded mt :
  decode env s = Ok decoded ->
  index0 decoded = Ok mt ->
  int_in mt recognized_tags = false ->
  decode_file_id env s data =
    Raise (ValueError ("Unknown media type: " +:+ s)).
Proof.
  intros Hdec Hidx Htag.
  enter_try Hdec Hidx.
  unfold int_in, recognized_tags in *. cbn [existsb] in *.
  repeat match goal with
  | H : context [Z.eqb mt ?k] |- _ =>
      destruct (Z.eqb mt k); cbn [orb] in H; [discriminate |]
  end.
  reflexivity.
Qed.

(** A descriptor comes only from decoded bytes that have a first byte. *)
Lemma decode_file_id_ok_inv env s data0 data :
  decode_file_id env s data0 = Ok data ->
  exists decoded mt, decode env s = Ok decoded /\ index0 decoded = Ok mt.
Proof.
  intros Hdata.
  destruct (decode env s) as [decoded | e] eqn:Hdec;
    [| decoding_raised Hdata Hdec].
  destruct (index0 decoded) as [mt | e] eqn:Hidx;
    [| decoding_raised Hdata Hdec].
  exists decoded, mt. auto.
Qed.

(** ** The claims *)

(** C6. A [Message] in which none of the known media kinds is present makes
    [download_media] raise the "no downloadable media" error, and the store,
    with the queue in it, is left as it was. *)
Theorem no_downloadable_media env (m : Message) fname block progress args w :
  (forall k, In k available_media -> getattr_kind m k = None) ->
  download_media env (RefMessage m) fname block progress args w
    = (w, Raised NoDownloadableMedia).
Proof.
  intros Hnone. apply download_media_raised.
  unfold describe, select_media.
  assert (Hfirst : forall kinds,
            (forall k, In k kinds -> getattr_kind m k = None) ->
            first_media kinds m = None).
  { induction kinds as [| k kinds IH]; intros Hk; [reflexivity |].
    simpl. rewrite (Hk k) by (left; reflexivity).
    apply IH. intros k' Hin. apply Hk. right. exact Hin. }
  rewrite (Hfirst _ Hnone). reflexivity.
Qed.

Lemma no_downloadable_media_witness :
  download_media sample_env (RefMessage empty_message) DEFAULT_DOWNLOAD_DIR
    true PyNone [] empty_world
    = (empty_world, Raised NoDownloadableMedia).
Proof.
  apply (no_downloadable_media sample_env empty_message).
  intros k _. destruct k; reflexivity.
Defined.

Lemma describe_of_identifier env message s :
  identifier_of message s ->
  exists data, describe env message = decode_file_id env s data.
Proof.
  intros [media [Hsel Hid]]. exists (snd (initial_data media)).
  rewrite (describe_identifier env message media Hsel), Hid. reflexivity.
Qed.

(** C1, as the code has it. When the tag that the method reads, the first
    byte of the decoded identifier, is outside the recognized set, the call
    ends with the [ValueError] "Unknown media type: <identifier>", which is
    not the invalid-identifier kind; the store is left as it was and nothing
    is put on the queue. *)
Theorem unknown_media_type_is_value_error
    env message s decoded mt fname block progress args w :
  identifier_of message s ->
  decode env s = Ok decoded ->
  index0 decoded = Ok mt ->
  int_in mt recognized_tags = false ->
  download_media env message fname block progress args w
    = (w, Raised (ValueError ("Unknown media type: " +:+ s)))
  /\ ValueError ("Unknown media type: " +:+ s) <> InvalidIdentifier.
Proof.
  intros Hid Hdec Hidx Htag. split; [| discriminate].
  destruct (describe_of_identifier env message s Hid) as [data Hdesc].
  apply download_media_raised. rewrite Hdesc.
  exact (unknown_tag_branch env s data decoded mt Hdec Hidx Htag).
Qed.

Lemma unknown_media_type_is_value_error_witness :
  download_media sample_env (RefStr id_tag7) DEFAULT_DOWNLOAD_DIR true PyNone []
      empty_world
    = (empty_world, Raised (ValueError ("Unknown media type: " +:+ id_tag7)))
  /\ ValueError ("Unknown media type: " +:+ id_tag7) <> InvalidIdentifier.
Proof.
  apply (unknown_media_type_is_value_error sample_env (RefStr id_tag7) id_tag7
           (byte_of_Z 7 :: byte_of_Z 0 :: byte_of_Z 0 :: byte_of_Z 0
              :: byte_of_Z 2 :: byte_of_Z 0 :: byte_of_Z 0 :: byte_of_Z 0
              :: byte_of_Z 123 :: repeat (byte_of_Z 0) 7
              ++ byte_of_Z 200 :: byte_of_Z 1 :: repeat (byte_of_Z 0) 6) 7).
  - exists (inl id_tag7). split; reflexivity.
  - vm_compute. reflexivity.
  - reflexivity.
  - reflexivity.
Defined.

(** C1, the claim as it is worded, fails on two inputs. An identifier of a
    24-byte record whose leading field is 7: the call raises the
    [ValueError], not the invalid-identifier kind. An identifier of a 29-byte
    record whose leading field is 257: the method reads the first byte, 1,
    and the call goes through and puts a request on the queue. *)
Lemma unknown_discriminant_counterexample :
  (exists decoded,
     decode sample_env id_tag7 = Ok decoded /\
     discriminant decoded = Some 7 /\
     int_in 7 recognized_tags = false /\
     snd (download_media sample_env (RefStr id_tag7) DEFAULT_DOWNLOAD_DIR true
            PyNone [] empty_world)
       = Raised (ValueError ("Unknown media type: " +:+ id_tag7)) /\
     snd (download_media sample_env (RefStr id_tag7) DEFAULT_DOWNLOAD_DIR true
            PyNone [] empty_world)
       <> Raised InvalidIdentifier)
  /\
  (exists decoded,
     decode sample_env id_field257 = Ok decoded /\
     discriminant decoded = Some 257 /\
     int_in 257 recognized_tags = false /\
     snd (download_media sample_env (RefStr id_field257) DEFAULT_DOWNLOAD_DIR
            true PyNone [] empty_world)
       = Awaiting 0 0 /\
     length (download_queue
               (fst (download_media sample_env (RefStr id_field257)
                       DEFAULT_DOWNLOAD_DIR true PyNone [] empty_world)))
       = 1%nat).
Proof.
  split.
  - eexists. split; [vm_compute; reflexivity |].
    repeat split; try (vm_compute; reflexivity).
    vm_compute. discriminate.
  - eexists. split; [vm_compute; reflexivity |].
    repeat split; vm_compute; reflexivity.
Qed.




(** The descriptor of line 120 has none of the variant fields. *)
Lemma initial_data_meta (media : string + Media) :
  exists fname fsize mime dt,
    snd (initial_data media) = FileData_meta fname fsize mime dt.
Proof.
  destruct media as [s | m]; simpl; eauto.
Qed.

Lemma unpack_iiqqib_tail (decoded : bytes) :
  tail (unpack_fields fmt_iiqqib decoded) =
    [VInt (int_field fmt_i 4 decoded); VInt (int_field fmt_q 8 decoded);
     VInt (int_field fmt_q 16 decoded); VInt (int_field fmt_i 24 decoded);
     VInt (int_field fmt_b 28 decoded)].
Proof.
  unfold fmt_iiqqib, int_field.
  cbn [unpack_fields tail unpack_field code_size].
  rewrite !drop_drop. reflexivity.
Qed.

Lemma unpack_iiqqc_tail (decoded : bytes) :
  tail (unpack_fields fmt_iiqqc decoded) =
    [VInt (int_field fmt_i 4 decoded); VInt (int_field fmt_q 8 decoded);
     VInt (int_field fmt_q 16 decoded); VBytes (take 1 (drop 24 decoded))].
Proof.
  unfold fmt_iiqqc, int_field.
  cbn [unpack_fields tail unpack_field code_size].
  rewrite !drop_drop. reflexivity.
Qed.

Lemma unpack_iiqq_tail (decoded : bytes) :
  tail (unpack_fields fmt_iiqq decoded) =
    [VInt (int_field fmt_i 4 decoded); VInt (int_field fmt_q 8 decoded);
     VInt (int_field fmt_q 16 decoded)].
Proof.
  unfold fmt_iiqq, int_field.
  cbn [unpack_fields tail unpack_field code_size].
  rewrite !drop_drop. reflexivity.
Qed.

(** The descriptor built from a record of tag 1 and of 29 bytes. *)
Lemma decode_photo_location env s decoded fname fsize mime dt :
  decode env s = Ok decoded ->
  index0 decoded = Ok 1 ->
  length decoded = 29%nat ->
  decode_file_id env s (FileData_meta fname fsize mime dt) =
    Ok {| media_type := Some 1;
          dc_id := Some (int_field fmt_i 4 decoded);
          document_id := None;
          access_hash := None;
          thumb_size := None;
          peer_id := Some (int_field fmt_q 8 decoded);
          volume_id := Some (int_field fmt_q 16 decoded);
          local_id := Some (int_field fmt_i 24 decoded);
          is_big := Some (negb (int_field fmt_b 28 decoded =? 0));
          file_size := fsize;
          mime_type := mime;
          file_name := fname;
          date := dt |}.
Proof.
  intros Hdec Hidx Hlen.
  enter_try Hdec Hidx.
  change (1 =? 1) with true. cbv iota.
  unfold struct_unpack. rewrite Hlen. change (29 =? calcsize fmt_iiqqib)%nat with true.
  cbv iota. cbn [bind]. rewrite unpack_iiqqib_tail. reflexivity.
Qed.

(** Whatever descriptor the decoding gives, its tag is the first byte and
    its variant fields are those of the variant of that tag. *)
Lemma decode_file_id_shape env s decoded mt fname fsize mime dt data :
  decode env s = Ok decoded ->
  index0 decoded = Ok mt ->
  decode_file_id env s (FileData_meta fname fsize mime dt) = Ok data ->
  exists v,
    variant_of mt = Some v /\
    media_type data = Some mt /\
    populated data = shape v /\
    file_name data = fname /\ file_size data = fsize /\
    mime_type data = mime /\ date data = dt.
Proof.
  intros Hdec Hidx.
  enter_try Hdec Hidx. unfold variant_of.
  destruct (mt =? 1).
  { unfold struct_unpack.
    destruct (length decoded =? calcsize fmt_iiqqib)%nat; [| discriminate].
    cbn [bind]. rewrite unpack_iiqqib_tail. cbn [try_decode].
    intros [= <-]. exists PhotoLocation. repeat split. }
  destruct (int_in mt [0; 2; 14]).
  { unfold struct_unpack.
    destruct (length decoded =? calcsize fmt_iiqqc)%nat; [| discriminate].
    cbn [bind]. rewrite unpack_iiqqc_tail.
    destruct (bytes_decode (take 1 (drop 24 decoded))) as [thumb | e];
      cbn [bind try_decode].
    - intros [= <-]. exists ThumbnailLocation. repeat split.
    - destruct (caught e); discriminate. }
  destruct (int_in mt [3; 4; 5; 8; 9; 10; 13]).
  { unfold struct_unpack.
    destruct (length decoded =? calcsize fmt_iiqq)%nat; [| discriminate].
    cbn [bind]. rewrite unpack_iiqq_tail. cbn [try_decode].
    intros [= <-]. exists DocumentLocation. repeat split. }
  discriminate.
Qed.

Lemma struct_unpack_exact (fmt : list fmt_code) (bs : bytes) :
  length bs = calcsize fmt ->
  struct_unpack fmt bs = Ok (unpack_fields fmt bs).
Proof.
  intros H. unfold struct_unpack. rewrite H, Nat.eqb_refl. reflexivity.
Qed.

(** The decoding gives a descriptor whenever the record has the width of
    its tag, a thumbnail character from 0x80 on apart: that one is not
    UTF-8 text and [bytes.decode] raises, which the handler lets through. *)
Lemma decode_total_on_width env s decoded mt fname fsize mime dt :
  decode env s = Ok decoded ->
  index0 decoded = Ok mt ->
  record_width mt = Some (length decoded) ->
  (exists data,
     decode_file_id env s (FileData_meta fname fsize mime dt) = Ok data)
  \/
  (variant_of mt = Some ThumbnailLocation /\
   (exists b, decoded !! 24%nat = Some b /\ 128 <= byte_val b) /\
   decode_file_id env s (FileData_meta fname fsize mime dt)
     = Raise UnicodeDecodeError).
Proof.
  intros Hdec Hidx Hw.
  pose proof (record_width_calcsize _ _ Hw) as Hsz.
  enter_try Hdec Hidx. unfold variant_of.
  unfold record_width in Hw.
  destruct (mt =? 1).
  { left. rewrite (struct_unpack_exact _ _ Hsz).
    cbn [bind]. rewrite unpack_iiqqib_tail. eexists. reflexivity. }
  destruct (int_in mt [0; 2; 14]).
  { rewrite (struct_unpack_exact _ _ Hsz).
    cbn [bind]. rewrite unpack_iiqqc_tail.
    injection Hw as Hlen.
    destruct (decoded !! 24%nat) as [b |] eqn:Hb.
    - rewrite (drop_S decoded b 24 Hb). cbn [take bytes_decode].
      destruct (Z.ltb_spec (byte_val b) 128).
      + left. eexists. reflexivity.
      + right. split; [reflexivity |]. split; [| reflexivity].
        exists b. auto.
    - apply lookup_ge_None in Hb. lia. }
  destruct (int_in mt [3; 4; 5; 8; 9; 10; 13]); [| discriminate].
  left. rewrite (struct_unpack_exact _ _ Hsz).
  cbn [bind]. rewrite unpack_iiqq_tail. eexists. reflexivity.
Qed.

(** C5. An identifier of tag 1 whose record has the expected 29 bytes is
    decoded into a descriptor with exactly the five fields [dc_id],
    [peer_id], [volume_id], [local_id] and [is_big], read at their offsets,
    [is_big] a boolean, and without [document_id], [access_hash] and
    [thumb_size]. In general a decoded descriptor has the fields of the one
    variant its tag selects, and no field of the others. *)
Theorem decoded_fields_follow_the_tag env message s decoded mt :
  identifier_of message s ->
  decode env s = Ok decoded ->
  has_tag decoded mt ->
  (mt = 1 -> length decoded = 29%nat ->
   exists data,
     describe env message = Ok data /\
     media_type data = Some 1 /\
     dc_id data = Some (int_field fmt_i 4 decoded) /\
     peer_id data = Some (int_field fmt_q 8 decoded) /\
     volume_id data = Some (int_field fmt_q 16 decoded) /\
     local_id data = Some (int_field fmt_i 24 decoded) /\
     is_big data = Some (negb (int_field fmt_b 28 decoded =? 0)) /\
     document_id data = None /\
     access_hash data = None /\
     thumb_size data = None)
  /\
  (forall data,
     describe env message = Ok data ->
     exists v,
       variant_of mt = Some v /\
       media_type data = Some mt /\
       populated data = shape v).
Proof.
  intros [media [Hsel Hid]] Hdec Htag.
  pose proof (has_tag_index0 decoded mt Htag) as Hidx.
  rewrite (describe_identifier env message media Hsel), Hid.
  destruct (initial_data_meta media) as (fname & fsize & mime & dt & Hmeta).
  rewrite Hmeta. split.
  - intros -> Hlen.
    rewrite (decode_photo_location env s decoded fname fsize mime dt Hdec Hidx Hlen).
    eexists. split; [reflexivity |]. repeat split.
  - intros data Hdata.
    destruct (decode_file_id_shape env s decoded mt fname fsize mime dt data
                Hdec Hidx Hdata) as (v & Hv & Hmt & Hshape & _).
    exists v. auto.
Qed.

Lemma decoded_fields_follow_the_tag_witness :
  exists data,
    describe sample_env (RefStr id_photo) = Ok data /\
    media_type data = Some 1 /\
    dc_id data = Some 2 /\
    peer_id data = Some 123 /\
    volume_id data = Some 456 /\
    local_id data = Some 7 /\
    is_big data = Some true /\
    document_id data = None /\
    access_hash data = None /\
    thumb_size data = None.
Proof.
  refine (proj1 (decoded_fields_follow_the_tag sample_env (RefStr id_photo)
                   id_photo photo_record 1 _ _ _) eq_refl eq_refl).
  - exists (inl id_photo). split; reflexivity.
  - vm_compute. reflexivity.
  - left. reflexivity.
Defined.

(** A dispatched request is the one [request_of] describes. *)
Lemma dispatched_inv env message fname block progress args w req :
  dispatched env message fname block progress args w req ->
  exists data label,
    describe env message = Ok data /\
    media_type_label env data = Ok label /\
    name_error env data fname = None /\
    req = request_of env data label fname progress args w.
Proof.
  unfold dispatched. intros Hq.
  destruct (describe env message) as [data | e] eqn:Hd.
  - destruct (media_type_label env data) as [label | e] eqn:Hl.
    + destruct (name_error env data fname) as [e |] eqn:Hn.
      * rewrite (download_media_name_raised env message fname block progress
                   args w data label e Hd Hl Hn) in Hq.
        simpl in Hq. apply (f_equal length) in Hq.
        rewrite length_app in Hq. simpl in Hq. lia.
      * rewrite (download_media_dispatched env message fname block progress
                   args w data label Hd Hl Hn) in Hq.
        simpl in Hq. apply app_inv_head in Hq. injection Hq as Hq.
        exists data, label. auto.
    + destruct (download_media_label_raised env message fname block progress
                  args w data e Hd Hl) as [Hsame _].
      rewrite Hsame in Hq. apply (f_equal length) in Hq.
      rewrite length_app in Hq. simpl in Hq. lia.
  - rewrite (download_media_raised env message fname block progress args w e Hd)
      in Hq.
    simpl in Hq. apply (f_equal length) in Hq.
    rewrite length_app in Hq. simpl in Hq. lia.
Qed.

Lemma is_set_worker_finish req res w :
  (req_done req < length (events w))%nat ->
  is_set (worker_finish req res w) (req_done req) = true.
Proof.
  intros H. unfold is_set, worker_finish. simpl.
  rewrite list_lookup_insert_eq by exact H. reflexivity.
Qed.

Lemma read_path_worker_finish req res w :
  (req_path req < length (paths w))%nat ->
  read_path (worker_finish req res w) (req_path req) = res.
Proof.
  intros H. unfold read_path, worker_finish. simpl.
  rewrite list_lookup_insert_eq by exact H. reflexivity.
Qed.

(** C7. A call with [block=True] that has dispatched its request is
    suspended on the event of that request. When the worker has written a
    result into the slot of the request, a path or the absent value, and
    then set the event, the call returns exactly that result, in the store
    left by the call and in any later store that still holds the two
    objects; however the store stands, the suspended call never ends with an
    exception. *)
Theorem blocking_call_returns_the_result_slot
    env message fname progress args w req :
  dispatched env message fname true progress args w req ->
  let w1 := fst (download_media env message fname true progress args w) in
  let o := snd (download_media env message fname true progress args w) in
  o = Awaiting (req_done req) (req_path req) /\
  resume w1 o = o /\
  (forall res, resume (worker_finish req res w1) o = Returned res) /\
  (forall w2 res,
     (req_done req < length (events w2))%nat ->
     (req_path req < length (paths w2))%nat ->
     resume (worker_finish req res w2) o = Returned res) /\
  (forall w2,
     is_set w2 (req_done req) = true ->
     resume w2 o = Returned (read_path w2 (req_path req))) /\
  (forall w2 e, resume w2 o <> Raised e).
Proof.
  intros Hdisp.
  destruct (dispatched_inv _ _ _ _ _ _ _ _ Hdisp) as (data & label & Hd & Hl & Hn & ->).
  rewrite (download_media_dispatched env message fname true progress args w
             data label Hd Hl Hn).
  cbn [fst snd request_of req_done req_path].
  assert (Hlater : forall w2 res,
            (length (events w) < length (events w2))%nat ->
            (length (paths w) < length (paths w2))%nat ->
            resume
              (worker_finish (request_of env data label fname progress args w)
                 res w2)
              (Awaiting (length (events w)) (length (paths w)))
            = Returned res).
  { intros w2 res He Hp.
    pose proof (is_set_worker_finish
                  (request_of env data label fname progress args w) res w2 He)
      as Hset.
    pose proof (read_path_worker_finish
                  (request_of env data label fname progress args w) res w2 Hp)
      as Hread.
    cbn [request_of req_done req_path] in Hset, Hread.
    unfold resume. rewrite Hset, Hread. reflexivity. }
  split; [reflexivity |]. split; [| split; [| split; [| split]]].
  - unfold resume, is_set. cbn [events].
    rewrite list_lookup_middle by reflexivity. reflexivity.
  - intros res. apply Hlater; cbn [events paths]; rewrite length_app; simpl; lia.
  - exact Hlater.
  - intros w2 Hset. unfold resume. rewrite Hset. reflexivity.
  - intros w2 e. unfold resume.
    destruct (is_set w2 (length (events w))); discriminate.
Qed.

Lemma blocking_call_returns_the_result_slot_witness :
  let call :=
    download_media sample_env (RefStr id_photo) "/data/in/" true PyNone []
      empty_world in
  let req :=
    request_of sample_env
      {| media_type := Some 1; dc_id := Some 2; document_id := None;
         access_hash := None; thumb_size := None; peer_id := Some 123;
         volume_id := Some 456; local_id := Some 7; is_big := Some true;
         file_size := None; mime_type := None; file_name := None;
         date := None |}
      "photo" "/data/in/" PyNone [] empty_world in
  snd call = Awaiting 0 0 /\
  resume (worker_finish req (Some "/data/in/photo.jpg") (fst call)) (snd call)
    = Returned (Some "/data/in/photo.jpg") /\
  resume (worker_finish req None (fst call)) (snd call) = Returned None.
Proof.
  intros call req.
  assert (Hdisp : dispatched sample_env (RefStr id_photo) "/data/in/" true
                    PyNone [] empty_world req) by (vm_compute; reflexivity).
  destruct (blocking_call_returns_the_result_slot sample_env (RefStr id_photo)
              "/data/in/" PyNone [] empty_world req Hdisp)
    as (Ho & _ & Hfin & _).
  split; [exact Ho |].
  split; [exact (Hfin (Some "/data/in/photo.jpg")) | exact (Hfin None)].
Defined.

(** C8. A call with [block=False] is never suspended on the completion
    signal. Whenever the reference is decoded into a descriptor, its tag has
    a label and no date stops the naming, the call puts its request on the
    queue and returns the absent value at once, the event of the request
    still unset and its slot still empty; the value returned is the same
    whether and whenever the worker completes the request afterwards. *)
Theorem non_blocking_call_returns_absent env message fname progress args w :
  let w1 := fst (download_media env message fname false progress args w) in
  let o := snd (download_media env message fname false progress args w) in
  (forall done path, o <> Awaiting done path) /\
  (forall data label,
     describe env message = Ok data ->
     media_type_label env data = Ok label ->
     name_error env data fname = None ->
     o = Returned None /\
     exists req,
       download_queue w1 = download_queue w ++ [req] /\
       req_data req = data /\
       is_set w1 (req_done req) = false /\
       read_path w1 (req_path req) = None /\
       (forall res w2, resume (worker_finish req res w2) o = Returned None)).
Proof.
  cbv zeta. split.
  - intros done path.
    destruct (describe env message) as [data | e] eqn:Hd.
    + destruct (media_type_label env data) as [label | e] eqn:Hl.
      * destruct (name_error env data fname) as [e |] eqn:Hn.
        -- rewrite (download_media_name_raised env message fname false
                      progress args w data label e Hd Hl Hn).
           discriminate.
        -- rewrite (download_media_dispatched env message fname false
                      progress args w data label Hd Hl Hn).
           discriminate.
      * destruct (download_media_label_raised env message fname false progress
                    args w data e Hd Hl) as [_ Hout].
        rewrite Hout. discriminate.
    + rewrite (download_media_raised env message fname false progress args w e
                 Hd).
      discriminate.
  - intros data label Hd Hl Hn.
    rewrite (download_media_dispatched env message fname false progress args
               w data label Hd Hl Hn).
    cbn [fst snd]. split; [reflexivity |].
    exists (request_of env data label fname progress args w).
    split; [reflexivity |]. split; [reflexivity |].
    unfold is_set, read_path. cbn [events paths request_of req_done req_path].
    rewrite !list_lookup_middle by reflexivity. auto.
Qed.

Lemma non_blocking_call_returns_absent_witness :
  let call :=
    download_media sample_env (RefStr id_photo) "/data/in/" false PyNone []
      empty_world in
  snd call = Returned None /\
  exists req,
    download_queue (fst call) = download_queue empty_world ++ [req] /\
    req_data req = photo_data /\
    is_set (fst call) (req_done req) = false /\
    read_path (fst call) (req_path req) = None /\
    (forall res w2, resume (worker_finish req res w2) (snd call) = Returned None).
Proof.
  intros call.
  apply (proj2 (non_blocking_call_returns_absent sample_env (RefStr id_photo)
                  "/data/in/" PyNone [] empty_world) photo_data "photo").
  - vm_compute. reflexivity.
  - vm_compute. reflexivity.
  - vm_compute. reflexivity.
Defined.

Lemma str_truthy_eqb (s : string) : String.eqb s "" = negb (str_truthy s).
Proof. destruct s; reflexivity. Qed.

Lemma str_truthy_false (s : string) : str_truthy s = false <-> s = "".
Proof. destruct s; simpl; split; congruence. Qed.

Lemma opt_str_or_empty (o : option string) :
  opt_str_or o "" = match o with Some known => known | None => "" end.
Proof.
  destruct o as [[| c s] |]; reflexivity.
Qed.

(** The file name of line 179 is the one the specification words. *)
Lemma resolve_target_file_name env data fname :
  snd (resolve_target env data fname) = spec_file_name fname data.
Proof.
  unfold resolve_target, spec_file_name.
  destruct (os_path_split fname) as [directory f]. cbn [snd].
  rewrite str_truthy_eqb, <- opt_str_or_empty.
  destruct (negb (os_path_isabs _)); cbn [snd];
    unfold str_or; destruct (str_truthy f); reflexivity.
Qed.

(** The directory of lines 181-182, by the test the method makes. *)
Lemma resolve_target_directory env data fname :
  fst (resolve_target env data fname) =
    if os_path_isabs (spec_file_name fname data)
    then DirStr (fst (os_path_split fname))
    else spec_directory env fname.
Proof.
  pose proof (resolve_target_file_name env data fname) as Hname.
  unfold resolve_target, spec_directory in *.
  destruct (os_path_split fname) as [directory f]. cbn [fst snd] in *.
  rewrite str_truthy_eqb.
  destruct (os_path_isabs (str_or f (opt_str_or (file_name data) ""))) eqn:Habs;
    cbn [negb fst snd] in *; rewrite <- Hname, Habs; [reflexivity |].
  unfold str_or, DEFAULT_DOWNLOAD_DIR. destruct (str_truthy directory); reflexivity.
Qed.

(** A joined path that is not absolute has a last component that is not
    absolute. *)
Lemma isabs_join (a b : string) :
  os_path_isabs (os_path_join a b) = false -> os_path_isabs b = false.
Proof.
  unfold os_path_join. destruct (os_path_isabs b) eqn:Hb; [| reflexivity].
  rewrite Hb. discriminate.
Qed.

(** The name and the directory of a dispatched request, by the tests the
    method makes. *)
Lemma dispatched_target env message fname block progress args w req :
  dispatched env message fname block progress args w req ->
  (spec_file_name fname (req_data req) <> "" ->
   req_file_name req = spec_file_name fname (req_data req)) /\
  (spec_file_name fname (req_data req) = "" ->
   exists label,
     media_type_label env (req_data req) = Ok label /\
     req_file_name req = synthesize env (req_data req) label) /\
  req_directory req =
    if os_path_isabs (spec_file_name fname (req_data req))
    then DirStr (fst (os_path_split fname))
    else spec_directory env fname.
Proof.
  intros Hdisp.
  destruct (dispatched_inv _ _ _ _ _ _ _ _ Hdisp) as (data & label & Hd & Hl & Hn & ->).
  cbn [request_of req_data req_file_name req_directory].
  rewrite resolve_target_file_name, resolve_target_directory.
  destruct (str_truthy (spec_file_name fname data)) eqn:Htruthy.
  - split; [reflexivity |]. split; [| reflexivity].
    intros Hempty. rewrite Hempty in Htruthy. discriminate.
  - apply str_truthy_false in Htruthy. split; [congruence |].
    split; [| reflexivity]. intros _. exists label. auto.
Qed.

(** C9. The target of a dispatched request. The file name is the file name
    component of the caller's path; when that is empty, the file name known
    to the descriptor; when there is none either, a synthesized name. When
    the resulting path is not absolute, the directory is the caller's
    directory under the base directory, with "downloads/" in its place when
    the caller's path has no directory. *)
Theorem target_path_resolution env message fname block progress args w req :
  dispatched env message fname block progress args w req ->
  let directory := fst (os_path_split fname) in
  let name := spec_file_name fname (req_data req) in
  (name <> "" -> req_file_name req = name) /\
  (name = "" ->
   exists label,
     media_type_label env (req_data req) = Ok label /\
     req_file_name req = synthesize env (req_data req) label) /\
  (os_path_isabs (os_path_join directory name) = false ->
   req_directory req = spec_directory env fname) /\
  (os_path_isabs name = false ->
   req_directory req = spec_directory env fname) /\
  (os_path_isabs name = true -> req_directory req = DirStr directory).
Proof.
  intros Hdisp. cbv zeta.
  destruct (dispatched_target _ _ _ _ _ _ _ _ Hdisp) as (Hname & Hsyn & Hdir).
  split; [exact Hname |]. split; [exact Hsyn |].
  rewrite Hdir. split; [| split].
  - intros Hjoin. rewrite (isabs_join _ _ Hjoin). reflexivity.
  - intros ->. reflexivity.
  - intros ->. reflexivity.
Qed.

Lemma target_path_resolution_witness :
  let req :=
    request_of sample_env report_data "document" "" PyNone [] empty_world in
  req_file_name req = "report.pdf" /\
  req_directory req = DirPath "/srv/bot" "downloads/".
Proof.
  intros req.
  assert (Hdisp : dispatched sample_env (RefMedia report_media) "" true PyNone
                    [] empty_world req) by (vm_compute; reflexivity).
  destruct (target_path_resolution sample_env (RefMedia report_media) ""
              true PyNone [] empty_world req Hdisp)
    as (Hname & _ & Hdir & _).
  split.
  - apply Hname. vm_compute. discriminate.
  - apply Hdir. vm_compute. reflexivity.
Defined.

(** The search of lines 101-107 stops at the first kind that is present. *)
Lemma first_media_stops (m : Message) (before after : list kind) (k : kind)
    (media : Media) :
  (forall k', In k' before -> getattr_kind m k' = None) ->
  getattr_kind m k = Some media ->
  first_media (before ++ k :: after) m = Some media.
Proof.
  intros Hbefore Hk.
  induction before as [| k0 before IH]; simpl.
  - rewrite Hk. reflexivity.
  - rewrite (Hbefore k0) by (left; reflexivity).
    apply IH. intros k' Hin. apply Hbefore. right. exact Hin.
Qed.

(** C10. For a [Message] the media used is the first attribute that is
    present in the order of [available_media]: the selection gives that
    media object, the identifier decoded is its [file_id], with its
    metadata, and the call is the call on that media object. For a bare
    identifier string the descriptor carries no file name, size, MIME type
    or date; when its tag has a label and no date stops the naming, the
    request is dispatched, under the file name component of the caller's
    path when that is not empty and under a synthesized name otherwise. *)
Theorem first_media_kind_and_bare_identifier
    env (m : Message) (before after : list kind) (k : kind) (media : Media)
    (s : string) fname block progress args w :
  available_media = before ++ k :: after ->
  (forall k', In k' before -> getattr_kind m k' = None) ->
  getattr_kind m k = Some media ->
  (select_media (RefMessage m) = Ok (inr media) /\
   describe env (RefMessage m) =
     decode_file_id env (file_id media)
       (FileData_meta
          (getattr (media_file_name media) (Some ""))
          (getattr (media_file_size media) None)
          (getattr (media_mime_type media) None)
          (getattr (media_date media) None)) /\
   download_media env (RefMessage m) fname block progress args w
     = download_media env (RefMedia media) fname block progress args w)
  /\
  (describe env (RefStr s) =
     decode_file_id env s (FileData_meta None None None None) /\
   forall data,
     describe env (RefStr s) = Ok data ->
     (file_name data = None /\ file_size data = None /\
      mime_type data = None /\ date data = None) /\
     forall label,
       media_type_label env data = Ok label ->
       name_error env data fname = None ->
       exists req,
         dispatched env (RefStr s) fname block progress args w req /\
         req_data req = data /\
         (snd (os_path_split fname) <> "" ->
          req_file_name req = snd (os_path_split fname)) /\
         (snd (os_path_split fname) = "" ->
          req_file_name req = synthesize env data label)).
Proof.
  intros Horder Hbefore Hk.
  assert (Hsel : select_media (RefMessage m) = Ok (inr media)).
  { unfold select_media.
    rewrite Horder, (first_media_stops m before after k media Hbefore Hk).
    reflexivity. }
  split; [split; [exact Hsel | split] | split].
  - rewrite (describe_identifier env (RefMessage m) (inr media) Hsel).
    reflexivity.
  - unfold download_media, describe. rewrite Hsel. reflexivity.
  - reflexivity.
  - intros data Hdata.
    assert (Hmeta : file_name data = None /\ file_size data = None /\
                    mime_type data = None /\ date data = None).
    { unfold describe in Hdata. cbn [select_media bind initial_data] in Hdata.
      destruct (decode_file_id_ok_inv env s _ data Hdata)
        as (decoded & mt & Hdec & Hidx).
      destruct (decode_file_id_shape env s decoded mt None None None None
                  data Hdec Hidx Hdata)
        as (_ & _ & _ & _ & Hfn & Hfs & Hfm & Hfd).
      auto. }
    split; [exact Hmeta |].
    intros label Hl Hn.
    exists (request_of env data label fname progress args w).
    split.
    { unfold dispatched.
      rewrite (download_media_dispatched env (RefStr s) fname block progress
                 args w data label Hdata Hl Hn).
      reflexivity. }
    split; [reflexivity |].
    cbn [request_of req_file_name].
    rewrite resolve_target_file_name. unfold spec_file_name.
    destruct Hmeta as (-> & _).
    destruct (snd (os_path_split fname)) as [| c rest]; cbn.
    + split; [congruence | reflexivity].
    + split; [reflexivity | discriminate].
Qed.

Lemma first_media_kind_and_bare_identifier_witness :
  select_media (RefMessage two_media_message) = Ok (inr report_media) /\
  exists req,
    dispatched sample_env (RefStr id_photo) DEFAULT_DOWNLOAD_DIR false PyNone []
      empty_world req /\
    req_data req = photo_data /\
    req_file_name req = synthesize sample_env photo_data "photo".
Proof.
  destruct (first_media_kind_and_bare_identifier sample_env
              two_media_message [audio] _ document report_media id_photo
              DEFAULT_DOWNLOAD_DIR false PyNone [] empty_world eq_refl)
    as [[Hsel _] [_ Hbare]].
  - intros k' [<- | []]. reflexivity.
  - reflexivity.
  - split; [exact Hsel |].
    destruct (Hbare photo_data) as [_ Hreq]; [vm_compute; reflexivity |].
    destruct (Hreq "photo") as (req & Hdisp & Hdata & _ & Hsyn).
    + vm_compute. reflexivity.
    + vm_compute. reflexivity.
    + exists req. split; [exact Hdisp |]. split; [exact Hdata |].
      apply Hsyn. vm_compute. reflexivity.
Defined.

(** A decoded descriptor carries one of the recognized tags. *)
Lemma variant_of_recognized (mt : Z) (v : variant) :
  variant_of mt = Some v -> In mt recognized_tags.
Proof.
  unfold variant_of, int_in, recognized_tags. cbn [existsb In].
  repeat match goal with
  | |- context [Z.eqb mt ?k] => destruct (Z.eqb_spec mt k); [subst; tauto |]
  end.
  discriminate.
Qed.

Lemma describe_media_type env message data :
  describe env message = Ok data ->
  exists mt, media_type data = Some mt /\ In mt recognized_tags.
Proof.
  unfold describe.
  destruct (select_media message) as [media | e]; [| discriminate].
  cbn [bind].
  destruct (initial_data_meta media) as (fname & fsize & mime & dt & Hmeta).
  destruct (initial_data media) as [s data0]. cbn [snd] in Hmeta. subst data0.
  intros Hdata.
  destruct (decode env s) as [decoded | e] eqn:Hdec.
  - destruct (index0 decoded) as [mt | e] eqn:Hidx.
    + destruct (decode_file_id_shape env s decoded mt fname fsize mime dt data
                  Hdec Hidx Hdata) as (v & Hv & Hmt & _).
      exists mt. split; [exact Hmt |]. exact (variant_of_recognized mt v Hv).
    + decoding_raised Hdata Hdec.
  - decoding_raised Hdata Hdec.
Qed.

(** On a recognized tag the extension is ".jpg" for the photo-like tags and
    otherwise the guess when it counts as true, else the default of the
    group of the tag. *)
Lemma choose_extension_recognized (mt : Z) (guessed : option string) :
  In mt recognized_tags ->
  exists dflt,
    default_extension mt = Some dflt /\
    choose_extension (Some mt) guessed =
      if int_in mt [0; 1; 2; 14] then ".jpg"
      else if guess_failed guessed then dflt
      else match guessed with
           | Some e => e
           | None => dflt
           end.
Proof.
  unfold recognized_tags. cbn [In].
  intros H.
  repeat (destruct H as [<- | H];
          [eexists; split; [reflexivity |];
           destruct guessed as [[| c e] |]; reflexivity |]).
  destruct H.
Qed.

Lemma synthesized_name env message fname block progress args w req :
  dispatched env message fname block progress args w req ->
  spec_file_name fname (req_data req) = "" ->
  exists mt label,
    media_type (req_data req) = Some mt /\
    In mt recognized_tags /\
    MEDIA_TYPE_ID env !! mt = Some label /\
    req_file_name req =
      label +:+ "_" +:+ strftime env (date_or_now env (req_data req)) +:+ "_"
        +:+ str_of_int (rnd_id env)
        +:+ choose_extension (Some mt)
              (guess_extension env (mime_type (req_data req))).
Proof.
  intros Hdisp Hempty.
  destruct (dispatched_inv _ _ _ _ _ _ _ _ Hdisp) as (data & label & Hd & Hl & Hn & ->).
  cbn [request_of req_data req_file_name] in *.
  rewrite resolve_target_file_name, Hempty. cbn [str_truthy].
  destruct (describe_media_type env message data Hd) as (mt & Hmt & Hin).
  exists mt, label. split; [exact Hmt |]. split; [exact Hin |].
  unfold media_type_label in Hl. rewrite Hmt in Hl.
  destruct (MEDIA_TYPE_ID env !! mt) as [label' |]; [| discriminate].
  injection Hl as ->. split; [reflexivity |].
  unfold synthesize. rewrite Hmt. reflexivity.
Qed.

(** C3, as the code has it. In a synthesized name the extension of a
    photo-like tag (0, 1, 2, 14) is ".jpg" whatever the guess gives; for
    every other tag it is the guessed extension when the guess succeeds and
    the fixed default of the group of the tag when the guess fails. Every
    tag that reaches the synthesis has such a default, so the ".unknown"
    branch is not taken. *)
Theorem extension_priority env message fname block progress args w req :
  dispatched env message fname block progress args w req ->
  spec_file_name fname (req_data req) = "" ->
  exists mt label dflt,
    media_type (req_data req) = Some mt /\
    MEDIA_TYPE_ID env !! mt = Some label /\
    default_extension mt = Some dflt /\
    req_file_name req =
      label +:+ "_" +:+ strftime env (date_or_now env (req_data req)) +:+ "_"
        +:+ str_of_int (rnd_id env)
        +:+ (if int_in mt [0; 1; 2; 14] then ".jpg"
             else if guess_failed
                       (guess_extension env (mime_type (req_data req)))
             then dflt
             else match guess_extension env (mime_type (req_data req)) with
                  | Some e => e
                  | None => dflt
                  end).
Proof.
  intros Hdisp Hempty.
  destruct (synthesized_name _ _ _ _ _ _ _ _ Hdisp Hempty)
    as (mt & label & Hmt & Hin & Hlabel & Hname).
  destruct (choose_extension_recognized mt
              (guess_extension env (mime_type (req_data req))) Hin)
    as (dflt & Hdflt & Hext).
  exists mt, label, dflt. rewrite Hname, Hext. auto.
Qed.

Lemma extension_priority_witness :
  let req :=
    request_of sample_env webm_voice_data "voice" DEFAULT_DOWNLOAD_DIR PyNone
      [] empty_world in
  exists mt label dflt,
    media_type (req_data req) = Some mt /\
    MEDIA_TYPE_ID sample_env !! mt = Some label /\
    default_extension mt = Some dflt /\
    req_file_name req =
      label +:+ "_" +:+ strftime sample_env (date_or_now sample_env (req_data req))
        +:+ "_" +:+ str_of_int (rnd_id sample_env)
        +:+ (if int_in mt [0; 1; 2; 14] then ".jpg"
             else if guess_failed
                       (guess_extension sample_env (mime_type (req_data req)))
             then dflt
             else match guess_extension sample_env (mime_type (req_data req)) with
                  | Some e => e
                  | None => dflt
                  end).
Proof.
  intros req.
  apply (extension_priority sample_env (RefMedia webm_voice)
           DEFAULT_DOWNLOAD_DIR true PyNone [] empty_world req).
  - vm_compute. reflexivity.
  - vm_compute. reflexivity.
Defined.

(** C3, the claim as it is worded, fails on a photo: the guess for
    "image/png" succeeds with ".png", and the synthesized name of the
    tag 2 descriptor ends in ".jpg". *)
Lemma guessed_extension_counterexample :
  let req :=
    request_of sample_env png_photo_data "photo" DEFAULT_DOWNLOAD_DIR PyNone
      [] empty_world in
  dispatched sample_env (RefMedia png_photo) DEFAULT_DOWNLOAD_DIR true PyNone
    [] empty_world req /\
  media_type (req_data req) = Some 2 /\
  guess_extension sample_env (mime_type (req_data req)) = Some ".png" /\
  req_file_name req = "photo_2019-01-01_00-00-00_6148914691236517205.jpg" /\
  req_file_name req <>
    "photo" +:+ "_" +:+ strftime sample_env 1546300800 +:+ "_"
      +:+ str_of_int (rnd_id sample_env) +:+ ".png".
Proof.
  repeat split; try (vm_compute; reflexivity).
  vm_compute. discriminate.
Qed.

(** C2, as the code has it. With no file name at hand, an audio-like tag
    (3 or 9), a failed guess and a known date other than 0 that
    [datetime.fromtimestamp] accepts, the request is dispatched under the
    name made of the label of the tag, an underscore, the formatted date, an
    underscore, the random id, and ".ogg" for tag 3, ".mp3" for tag 9. On a
    date that [datetime.fromtimestamp] refuses the call raises that
    exception and puts nothing on the queue. *)
Theorem audio_like_synthesized_name
    env message fname block progress args w data mt label d :
  describe env message = Ok data ->
  spec_file_name fname data = "" ->
  media_type data = Some mt ->
  mt = 3 \/ mt = 9 ->
  MEDIA_TYPE_ID env !! mt = Some label ->
  guess_failed (guess_extension env (mime_type data)) = true ->
  date data = Some d ->
  d <> 0 ->
  (fromtimestamp_error env d = None ->
   exists req,
     dispatched env message fname block progress args w req /\
     req_data req = data /\
     req_file_name req =
       label +:+ "_" +:+ strftime env d +:+ "_" +:+ str_of_int (rnd_id env)
         +:+ (if mt =? 3 then ".ogg" else ".mp3"))
  /\
  (forall e,
     fromtimestamp_error env d = Some e ->
     snd (download_media env message fname block progress args w)
       = Raised (date_exn e) /\
     download_queue (fst (download_media env message fname block progress args w))
       = download_queue w).
Proof.
  intros Hd Hempty Hmt Htag Hlabel Hguess Hdate Hnz.
  assert (Hl : media_type_label env data = Ok label)
    by (unfold media_type_label; rewrite Hmt, Hlabel; reflexivity).
  assert (Hnow : date_or_now env data = d).
  { unfold date_or_now. rewrite Hdate.
    destruct (Z.eqb_spec d 0); [contradiction | reflexivity]. }
  assert (Hfalsy : str_truthy (snd (resolve_target env data fname)) = false)
    by (rewrite resolve_target_file_name, Hempty; reflexivity).
  split.
  - intros Hok.
    assert (Hn : name_error env data fname = None)
      by (unfold name_error; rewrite Hfalsy, Hnow, Hok; reflexivity).
    exists (request_of env data label fname progress args w).
    split.
    { unfold dispatched.
      rewrite (download_media_dispatched env message fname block progress args
                 w data label Hd Hl Hn).
      reflexivity. }
    split; [reflexivity |].
    cbn [request_of req_file_name]. rewrite Hfalsy.
    unfold synthesize. rewrite Hmt, Hnow. do 4 f_equal.
    destruct (guess_extension env (mime_type data)) as [[| c e] |];
      try discriminate; destruct Htag as [-> | ->]; reflexivity.
  - intros e He.
    assert (Hn : name_error env data fname = Some (date_exn e))
      by (unfold name_error; rewrite Hfalsy, Hnow, He; reflexivity).
    rewrite (download_media_name_raised env message fname block progress args
               w data label (date_exn e) Hd Hl Hn).
    split; reflexivity.
Qed.

Lemma audio_like_synthesized_name_witness :
  exists req,
    dispatched sample_env (RefMedia unknown_mime_voice) DEFAULT_DOWNLOAD_DIR
      true PyNone [] empty_world req /\
    req_data req = unknown_mime_voice_data /\
    req_file_name req = "voice_2019-01-01_00-00-00_6148914691236517205.ogg".
Proof.
  apply (proj1 (audio_like_synthesized_name sample_env
                  (RefMedia unknown_mime_voice) DEFAULT_DOWNLOAD_DIR true PyNone
                  [] empty_world unknown_mime_voice_data 3 "voice" 1546300800
                  ltac:(vm_compute; reflexivity) ltac:(vm_compute; reflexivity)
                  eq_refl (or_introl eq_refl) ltac:(vm_compute; reflexivity)
                  ltac:(vm_compute; reflexivity) eq_refl ltac:(lia))).
  vm_compute. reflexivity.
Defined.

(** C2, the claim as it is worded, fails on three inputs. A file of tag 9,
    which the table labels "audio", no name at hand, a failed guess and a
    known date: the name ends in ".mp3". A file of tag 3 under a table
    that labels it "audio", with the date 0: the name carries the current
    time, not the date. The same file dated in the year 10000: no name is
    made, the call raises the [ValueError] of [datetime.fromtimestamp] and
    puts nothing on the queue. *)
Lemma audio_name_counterexample :
  (let req :=
     request_of sample_env unknown_mime_audio_data "audio" DEFAULT_DOWNLOAD_DIR
       PyNone [] empty_world in
   dispatched sample_env (RefMedia unknown_mime_audio) DEFAULT_DOWNLOAD_DIR
     true PyNone [] empty_world req /\
   spec_file_name DEFAULT_DOWNLOAD_DIR (req_data req) = "" /\
   MEDIA_TYPE_ID sample_env !! 9 = Some "audio" /\
   media_type (req_data req) = Some 9 /\
   guess_failed (guess_extension sample_env (mime_type (req_data req))) = true /\
   date (req_data req) = Some 1546300800 /\
   req_file_name req = "audio_2019-01-01_00-00-00_6148914691236517205.mp3" /\
   req_file_name req <>
     "audio" +:+ "_" +:+ strftime sample_env 1546300800 +:+ "_"
       +:+ str_of_int (rnd_id sample_env) +:+ ".ogg")
  /\
  (let req :=
     request_of audio3_env epoch_voice_data "audio" DEFAULT_DOWNLOAD_DIR
       PyNone [] empty_world in
   dispatched audio3_env (RefMedia epoch_voice) DEFAULT_DOWNLOAD_DIR
     true PyNone [] empty_world req /\
   spec_file_name DEFAULT_DOWNLOAD_DIR (req_data req) = "" /\
   MEDIA_TYPE_ID audio3_env !! 3 = Some "audio" /\
   media_type (req_data req) = Some 3 /\
   guess_failed (guess_extension audio3_env (mime_type (req_data req))) = true /\
   date (req_data req) = Some 0 /\
   req_file_name req = "audio_2019-05-01_00-00-00_6148914691236517205.ogg" /\
   req_file_name req <>
     "audio" +:+ "_" +:+ strftime audio3_env 0 +:+ "_"
       +:+ str_of_int (rnd_id audio3_env) +:+ ".ogg")
  /\
  (media_date far_future_voice = Has (Some 253402300800) /\
   MEDIA_TYPE_ID audio3_env !! 3 = Some "audio" /\
   guess_failed (guess_extension audio3_env None) = true /\
   download_media audio3_env (RefMedia far_future_voice) DEFAULT_DOWNLOAD_DIR
     true PyNone [] empty_world
   = ({| download_queue := []; events := [false]; paths := [None] |},
      Raised (ValueError "year 10000 is out of range"))).
Proof.
  split; [| split]; cbv zeta; repeat split; try (vm_compute; reflexivity);
    vm_compute; discriminate.
Qed.

(** ** Further behaviour at the edges of the claims *)

(** An identifier that decodes to no byte at all: [decoded[0]] raises
    [IndexError], which the handler does not catch. *)
Example empty_payload_index_error :
  download_media sample_env (RefStr "") DEFAULT_DOWNLOAD_DIR true PyNone []
    empty_world
  = (empty_world, Raised IndexError).
Proof. vm_compute. reflexivity. Qed.

(** A thumbnail record of the right width whose character is 0xff. *)
Example thumbnail_character_not_text :
  download_media sample_env (RefStr "AgAAAAQAAADpAwAAAAAAALP__________w")
    DEFAULT_DOWNLOAD_DIR true PyNone [] empty_world
  = (empty_world, Raised UnicodeDecodeError).
Proof. vm_compute. reflexivity. Qed.

(** A tag that the label table of the client lacks: the events and the list
    are created, the lookup at line 184 raises, nothing is put on the
    queue. *)
Example missing_label_key_error :
  download_media
    {| decode := urlsafe_b64decode;
       MEDIA_TYPE_ID := delete 5 sample_MEDIA_TYPE_ID;
       guess_extension := sample_guess_extension;
       PARENT_DIR := "/srv/bot";
       rnd_id := 1;
       time_time := 1556668800;
       strftime := utc_strftime;
     fromtimestamp_error := utc_fromtimestamp_error |}
    (RefStr id_document) DEFAULT_DOWNLOAD_DIR true PyNone [] empty_world
  = ({| download_queue := []; events := [false]; paths := [None] |},
     Raised (KeyError 5)).
Proof. vm_compute. reflexivity. Qed.

(** The default path: the request of a non-blocking call on a document with
    a known file name. *)
Example default_path_request :
  download_media sample_env (RefMedia report_media) DEFAULT_DOWNLOAD_DIR false
    PyNone [] empty_world
  = ({| download_queue :=
          [{| req_data := report_data;
              req_directory := DirPath "/srv/bot" "downloads";
              req_file_name := "report.pdf";
              req_done := 0%nat;
              req_progress := PyNone;
              req_progress_args := [];
              req_path := 0%nat |}];
        events := [false];
        paths := [None] |},
     Returned None).
Proof. vm_compute. reflexivity. Qed.

(** ** The decoding, field by field *)

Lemma le_unsigned_bound (bs : bytes) :
  0 <= le_unsigned bs < 256 ^ Z.of_nat (length bs).
Proof.
  induction bs as [| b bs IH].
  - simpl. lia.
  - cbn [le_unsigned length]. rewrite Nat2Z.inj_succ, Z.pow_succ_r by lia.
    pose proof (byte_val_range b). lia.
Qed.

Lemma le_unsigned_take_bound (n : nat) (bs : bytes) :
  0 <= le_unsigned (take n bs) < 256 ^ Z.of_nat n.
Proof.
  pose proof (le_unsigned_bound (take n bs)) as H.
  assert (Hlen : (length (take n bs) <= n)%nat) by (rewrite length_take; lia).
  assert (256 ^ Z.of_nat (length (take n bs)) <= 256 ^ Z.of_nat n)
    by (apply Z.pow_le_mono_r; lia).
  lia.
Qed.

Lemma to_signed_range (w u : Z) :
  0 < w -> 0 <= u < 2 ^ w ->
  - 2 ^ (w - 1) <= to_signed w u < 2 ^ (w - 1).
Proof.
  intros Hw Hu. unfold to_signed.
  assert (Hpow : 2 ^ w = 2 * 2 ^ (w - 1)).
  { replace w with (Z.succ (w - 1)) at 1 by lia. apply Z.pow_succ_r. lia. }
  destruct (Z.ltb_spec u (2 ^ (w - 1))); lia.
Qed.

Lemma int_field_i_range (off : nat) (decoded : bytes) :
  - 2 ^ 31 <= int_field fmt_i off decoded < 2 ^ 31.
Proof.
  unfold int_field. cbn [unpack_field code_size].
  apply (to_signed_range 32); [lia |].
  exact (le_unsigned_take_bound 4 (drop off decoded)).
Qed.

Lemma int_field_q_range (off : nat) (decoded : bytes) :
  - 2 ^ 63 <= int_field fmt_q off decoded < 2 ^ 63.
Proof.
  unfold int_field. cbn [unpack_field code_size].
  apply (to_signed_range 64); [lia |].
  exact (le_unsigned_take_bound 8 (drop off decoded)).
Qed.

(** What a descriptor that the decoding has given says about the record:
    its width, and where each field was read. *)
Lemma decode_file_id_fields env s decoded mt fname fsize mime dt data :
  decode env s = Ok decoded ->
  index0 decoded = Ok mt ->
  decode_file_id env s (FileData_meta fname fsize mime dt) = Ok data ->
  dc_id data = Some (int_field fmt_i 4 decoded) /\
  match variant_of mt with
  | Some PhotoLocation =>
      length decoded = 29%nat /\
      peer_id data = Some (int_field fmt_q 8 decoded) /\
      volume_id data = Some (int_field fmt_q 16 decoded) /\
      local_id data = Some (int_field fmt_i 24 decoded) /\
      is_big data = Some (negb (int_field fmt_b 28 decoded =? 0))
  | Some ThumbnailLocation =>
      length decoded = 25%nat /\
      document_id data = Some (int_field fmt_q 8 decoded) /\
      access_hash data = Some (int_field fmt_q 16 decoded) /\
      exists b,
        decoded !! 24%nat = Some b /\ byte_val b < 128 /\
        thumb_size data = Some (String (Ascii.ascii_of_byte b) EmptyString)
  | Some DocumentLocation =>
      length decoded = 24%nat /\
      document_id data = Some (int_field fmt_q 8 decoded) /\
      access_hash data = Some (int_field fmt_q 16 decoded)
  | None => False
  end.
Proof.
  intros Hdec Hidx.
  enter_try Hdec Hidx. unfold variant_of.
  destruct (mt =? 1).
  { unfold struct_unpack.
    destruct (Nat.eqb_spec (length decoded) (calcsize fmt_iiqqib)) as [Hlen |];
      [| discriminate].
    cbn [bind]. rewrite unpack_iiqqib_tail. cbn [try_decode].
    intros [= <-]. cbn. auto 10. }
  destruct (int_in mt [0; 2; 14]).
  { unfold struct_unpack.
    destruct (Nat.eqb_spec (length decoded) (calcsize fmt_iiqqc)) as [Hlen |];
      [| discriminate].
    cbn [bind]. rewrite unpack_iiqqc_tail.
    destruct (decoded !! 24%nat) as [b |] eqn:Hb;
      [| apply lookup_ge_None in Hb; cbn in Hlen; lia].
    rewrite (drop_S decoded b 24 Hb). cbn [take bytes_decode].
    destruct (Z.ltb_spec (byte_val b) 128); cbn [bind try_decode];
      [| discriminate].
    intros [= <-]. cbn. repeat split; try exact Hlen. exists b. auto. }
  destruct (int_in mt [3; 4; 5; 8; 9; 10; 13]); [| discriminate].
  unfold struct_unpack.
  destruct (Nat.eqb_spec (length decoded) (calcsize fmt_iiqq)) as [Hlen |];
    [| discriminate].
  cbn [bind]. rewrite unpack_iiqq_tail. cbn [try_decode].
  intros [= <-]. cbn. auto.
Qed.

(** The descriptor built from a thumbnail record of 25 bytes. *)
Lemma decode_thumbnail_location env s decoded mt b fname fsize mime dt :
  decode env s = Ok decoded ->
  index0 decoded = Ok mt ->
  int_in mt [0; 2; 14] = true ->
  length decoded = 25%nat ->
  decoded !! 24%nat = Some b ->
  decode_file_id env s (FileData_meta fname fsize mime dt) =
    if byte_val b <? 128
    then Ok {| media_type := Some mt;
               dc_id := Some (int_field fmt_i 4 decoded);
               document_id := Some (int_field fmt_q 8 decoded);
               access_hash := Some (int_field fmt_q 16 decoded);
               thumb_size := Some (String (Ascii.ascii_of_byte b) EmptyString);
               peer_id := None;
               volume_id := None;
               local_id := None;
               is_big := None;
               file_size := fsize;
               mime_type := mime;
               file_name := fname;
               date := dt |}
    else Raise UnicodeDecodeError.
Proof.
  intros Hdec Hidx Htag Hlen Hb.
  enter_try Hdec Hidx.
  assert (Hne : (mt =? 1) = false).
  { destruct (Z.eqb_spec mt 1) as [-> |]; [discriminate | reflexivity]. }
  rewrite Hne, Htag.
  rewrite (struct_unpack_exact fmt_iiqqc decoded Hlen).
  cbn [bind]. rewrite unpack_iiqqc_tail.
  rewrite (drop_S decoded b 24 Hb). cbn [take bytes_decode].
  destruct (byte_val b <? 128); reflexivity.
Qed.

(** The descriptor built from a document record of 24 bytes. *)
Lemma decode_document_location env s decoded mt fname fsize mime dt :
  decode env s = Ok decoded ->
  index0 decoded = Ok mt ->
  int_in mt [3; 4; 5; 8; 9; 10; 13] = true ->
  length decoded = 24%nat ->
  decode_file_id env s (FileData_meta fname fsize mime dt) =
    Ok {| media_type := Some mt;
          dc_id := Some (int_field fmt_i 4 decoded);
          document_id := Some (int_field fmt_q 8 decoded);
          access_hash := Some (int_field fmt_q 16 decoded);
          thumb_size := None;
          peer_id := None;
          volume_id := None;
          local_id := None;
          is_big := None;
          file_size := fsize;
          mime_type := mime;
          file_name := fname;
          date := dt |}.
Proof.
  intros Hdec Hidx Htag Hlen.
  enter_try Hdec Hidx.
  assert (Hne : (mt =? 1) = false).
  { destruct (Z.eqb_spec mt 1) as [-> |]; [discriminate | reflexivity]. }
  assert (Hnt : int_in mt [0; 2; 14] = false).
  { unfold int_in in *. cbn [existsb] in *.
    destruct (Z.eqb_spec mt 0) as [-> |]; [discriminate |].
    destruct (Z.eqb_spec mt 2) as [-> |]; [discriminate |].
    destruct (Z.eqb_spec mt 14) as [-> |]; [discriminate | reflexivity]. }
  rewrite Hne, Hnt, Htag.
  rewrite (struct_unpack_exact fmt_iiqq decoded Hlen).
  cbn [bind]. rewrite unpack_iiqq_tail. reflexivity.
Qed.

(** ** The call as a whole: the store, the errors *)

Lemma download_media_label_raised_world
    env message fname block progress args w data e :
  describe env message = Ok data ->
  media_type_label env data = Raise e ->
  download_media env message fname block progress args w =
    ({| download_queue := download_queue w;
        events := events w ++ [false];
        paths := paths w ++ [None] |},
     Raised e).
Proof.
  intros Hd Hl. unfold download_media. rewrite Hd. simpl.
  destruct (resolve_target env data fname). rewrite Hl. reflexivity.
Qed.

Lemma try_decode_not_caught {A : Type} (body : result A) (e : exn) :
  try_decode body = Raise e -> caught e = false.
Proof.
  destruct body as [a | e0]; cbn [try_decode]; [discriminate |].
  destruct (caught e0) eqn:Hc; intros [= <-]; [reflexivity | exact Hc].
Qed.

Lemma media_type_label_not_caught env data e :
  media_type_label env data = Raise e -> caught e = false.
Proof.
  unfold media_type_label.
  destruct (media_type data) as [t |]; [| intros [= <-]; reflexivity].
  destruct (MEDIA_TYPE_ID env !! t); [discriminate |].
  intros [= <-]. reflexivity.
Qed.

Lemma name_error_kind env data fname e :
  name_error env data fname = Some e ->
  caught e = false /\ e <> FileIdInvalid.
Proof.
  unfold name_error.
  destruct (str_truthy (snd (resolve_target env data fname))); [discriminate |].
  destruct (fromtimestamp_error env (date_or_now env data)) as [[msg | |] |];
    intros [= <-]; split; (reflexivity || discriminate).
Qed.

Lemma describe_not_caught env message e :
  describe env message = Raise e -> caught e = false.
Proof.
  unfold describe.
  destruct (select_media message) as [media | e0] eqn:Hsel; cbn [bind].
  - destruct (initial_data media) as [s data].
    unfold decode_file_id. apply try_decode_not_caught.
  - intros [= <-]. unfold select_media in Hsel.
    destruct message as [m | m | s]; try discriminate.
    destruct (first_media available_media m); [discriminate |].
    injection Hsel as <-. reflexivity.
Qed.


Lemma lookup_snoc_default {A : Type} (l : list A) (x d : A) (i : nat) :
  l !! i = None -> default d ((l ++ [x]) !! i) = x \/ (l ++ [x]) !! i = None.
Proof.
  intros Hnone. apply lookup_ge_None in Hnone.
  destruct (Nat.eq_dec i (length l)) as [-> | Hne].
  - left. rewrite list_lookup_middle by reflexivity. reflexivity.
  - right. apply lookup_ge_None. rewrite length_app. simpl. lia.
Qed.

Lemma is_set_snoc (q : list Request) (evs : list bool) (ps : list (option string))
    (q' : list Request) (ps' : list (option string)) (done : nat) :
  is_set {| download_queue := q'; events := evs ++ [false]; paths := ps' |} done
  = is_set {| download_queue := q; events := evs; paths := ps |} done.
Proof.
  unfold is_set. cbn [events].
  destruct (evs !! done) as [b |] eqn:Hb.
  - rewrite (lookup_app_l_Some _ _ _ _ Hb). reflexivity.
  - destruct (lookup_snoc_default evs false false done Hb) as [H | H].
    + destruct ((evs ++ [false]) !! done); simpl in H; congruence.
    + rewrite H. reflexivity.
Qed.

Lemma read_path_snoc (q : list Request) (evs : list bool) (ps : list (option string))
    (q' : list Request) (evs' : list bool) (path : nat) :
  read_path {| download_queue := q'; events := evs'; paths := ps ++ [None] |} path
  = read_path {| download_queue := q; events := evs; paths := ps |} path.
Proof.
  unfold read_path. cbn [paths].
  destruct (ps !! path) as [v |] eqn:Hv.
  - rewrite (lookup_app_l_Some _ _ _ _ Hv). reflexivity.
  - destruct (lookup_snoc_default ps None None path Hv) as [H | H].
    + destruct ((ps ++ [None]) !! path); simpl in H; congruence.
    + rewrite H. reflexivity.
Qed.


(** X2. A call sets no event and writes no result slot: whether an event
    is set, and what a slot holds, is the same after the call as before it,
    for every event and every slot, the new ones included (unset, empty). *)
Theorem call_leaves_events_and_slots
    env message fname block progress args w :
  let w1 := fst (download_media env message fname block progress args w) in
  (forall done, is_set w1 done = is_set w done) /\
  (forall path, read_path w1 path = read_path w path).
Proof.
  cbv zeta. destruct w as [q evs ps].
  destruct (describe env message) as [data | e] eqn:Hd.
  - destruct (media_type_label env data) as [label | e] eqn:Hl.
    + destruct (name_error env data fname) as [e |] eqn:Hn.
      { rewrite (download_media_name_raised env message fname block progress
                   args _ data label e Hd Hl Hn).
        cbn [fst download_queue events paths]. split; intros i.
        - apply is_set_snoc.
        - apply read_path_snoc. }
      rewrite (download_media_dispatched env message fname block progress args
                 _ data label Hd Hl Hn).
      cbn [fst download_queue events paths]. split; intros i.
      * apply is_set_snoc.
      * apply read_path_snoc.
    + rewrite (download_media_label_raised_world env message fname block
                 progress args _ data e Hd Hl).
      cbn [fst download_queue events paths]. split; intros i.
      * apply is_set_snoc.
      * apply read_path_snoc.
  - rewrite (download_media_raised env message fname block progress args _ e Hd).
    split; reflexivity.
Qed.


(** X4. The three exceptions that the handler names never leave the call:
    whatever exception [download_media] raises, it is none of
    [AssertionError], [binascii.Error] and [struct.error]. *)
Theorem low_level_exceptions_never_escape
    env message fname block progress args w e :
  snd (download_media env message fname block progress args w) = Raised e ->
  caught e = false.
Proof.
  destruct (describe env message) as [data | e0] eqn:Hd.
  - destruct (media_type_label env data) as [label | e0] eqn:Hl.
    + destruct (name_error env data fname) as [e0 |] eqn:Hn.
      { rewrite (download_media_name_raised env message fname block progress
                   args w data label e0 Hd Hl Hn).
        cbn [snd]. intros [= <-].
        exact (proj1 (name_error_kind env data fname e0 Hn)). }
      rewrite (download_media_dispatched env message fname block progress args
                 w data label Hd Hl Hn).
      cbn [snd]. destruct block; discriminate.
    + rewrite (download_media_label_raised_world env message fname block
                 progress args w data e0 Hd Hl).
      cbn [snd]. intros [= <-]. exact (media_type_label_not_caught env data e0 Hl).
  - rewrite (download_media_raised env message fname block progress args w e0 Hd).
    cbn [snd]. intros [= <-]. exact (describe_not_caught env message e0 Hd).
Qed.

Lemma low_level_exceptions_never_escape_witness :
  snd (download_media sample_env (RefStr id_short_record) DEFAULT_DOWNLOAD_DIR
         true PyNone [] empty_world) = Raised FileIdInvalid
  /\ caught FileIdInvalid = false.
Proof.
  split; [vm_compute; reflexivity |].
  apply (low_level_exceptions_never_escape sample_env (RefStr id_short_record)
           DEFAULT_DOWNLOAD_DIR true PyNone [] empty_world FileIdInvalid).
  vm_compute. reflexivity.
Defined.

(** X5. The invalid-identifier error has no other origin than the two
    stages of the decoding: when a call raises [FileIdInvalid], either
    [utils.decode] raised on the identifier, one of the kinds the handler
    names or [FileIdInvalid] itself, or the decoded bytes start with a
    recognized tag and do not have the width of that tag. *)
Theorem invalid_identifier_only_from_decoding
    env message fname block progress args w :
  snd (download_media env message fname block progress args w)
    = Raised FileIdInvalid ->
  exists s,
    identifier_of message s /\
    ((exists e, decode env s = Raise e /\ (caught e = true \/ e = FileIdInvalid))
     \/ binary_stage_failure env s).
Proof.
  intros Hout.
  destruct (describe env message) as [data | e0] eqn:Hd.
  { destruct (media_type_label env data) as [label | e0] eqn:Hl.
    - destruct (name_error env data fname) as [e0 |] eqn:Hn.
      { rewrite (download_media_name_raised env message fname block progress
                   args w data label e0 Hd Hl Hn) in Hout.
        cbn [snd] in Hout. injection Hout as ->.
        destruct (name_error_kind env data fname FileIdInvalid Hn) as [_ Hne].
        contradiction. }
      rewrite (download_media_dispatched env message fname block progress args
                 w data label Hd Hl Hn) in Hout.
      cbn [snd] in Hout. destruct block; discriminate.
    - rewrite (download_media_label_raised_world env message fname block
                 progress args w data e0 Hd Hl) in Hout.
      cbn [snd] in Hout. injection Hout as ->.
      unfold media_type_label in Hl.
      destruct (media_type data); [| discriminate].
      destruct (MEDIA_TYPE_ID env !! z); discriminate. }
  rewrite (download_media_raised env message fname block progress args w e0 Hd)
    in Hout.
  cbn [snd] in Hout. injection Hout as ->.
  destruct (select_media message) as [media | e0] eqn:Hsel.
  2:{ unfold describe in Hd. rewrite Hsel in Hd. cbn [bind] in Hd.
      unfold select_media in Hsel.
      destruct message as [m | m | s]; try discriminate.
      destruct (first_media available_media m); [discriminate |].
      injection Hsel as <-. discriminate. }
  rewrite (describe_identifier env message media Hsel) in Hd.
  exists (fst (initial_data media)).
  split; [exists media; auto |].
  destruct (initial_data_meta media) as (fname0 & fsize & mime & dt & Hmeta).
  rewrite Hmeta in Hd.
  set (s := fst (initial_data media)) in *. clearbody s.
  destruct (decode env s) as [decoded | e] eqn:Hdec.
  2:{ left. exists e. split; [reflexivity |].
      rewrite (decode_raises env s _ e Hdec) in Hd.
      destruct (caught e); [left; reflexivity | right; congruence]. }
  right.
  destruct (index0 decoded) as [mt | e] eqn:Hidx.
  2:{ destruct decoded; cbn in Hidx; [| discriminate]. injection Hidx as <-.
      unfold decode_file_id, decode_body in Hd. rewrite Hdec in Hd.
      cbn in Hd. discriminate. }
  revert Hd. enter_try Hdec Hidx. intros Hd.
  destruct (mt =? 1) eqn:H1.
  { unfold struct_unpack in Hd.
    destruct (Nat.eqb_spec (length decoded) (calcsize fmt_iiqqib)) as [Hlen | Hlen].
    - cbn [bind] in Hd. rewrite unpack_iiqqib_tail in Hd. discriminate.
    - exists decoded, mt, 29%nat. unfold record_width. rewrite H1. auto. }
  destruct (int_in mt [0; 2; 14]) eqn:H2.
  { unfold struct_unpack in Hd.
    destruct (Nat.eqb_spec (length decoded) (calcsize fmt_iiqqc)) as [Hlen | Hlen].
    - cbn [bind] in Hd. rewrite unpack_iiqqc_tail in Hd.
      destruct (bytes_decode (take 1 (drop 24 decoded))) as [thumb | e] eqn:Hb;
        cbn [bind try_decode] in Hd; [discriminate |].
      unfold bytes_decode in Hb.
      destruct (take 1 (drop 24 decoded)) as [| b [| b' rest]];
        try discriminate.
      + destruct (byte_val b <? 128); [discriminate |].
        injection Hb as <-. discriminate.
      + injection Hb as <-. discriminate.
    - exists decoded, mt, 25%nat. unfold record_width. rewrite H1, H2. auto. }
  destruct (int_in mt [3; 4; 5; 8; 9; 10; 13]) eqn:H3.
  { unfold struct_unpack in Hd.
    destruct (Nat.eqb_spec (length decoded) (calcsize fmt_iiqq)) as [Hlen | Hlen].
    - cbn [bind] in Hd. rewrite unpack_iiqq_tail in Hd. discriminate.
    - exists decoded, mt, 24%nat. unfold record_width. rewrite H1, H2, H3. auto. }
  discriminate.
Qed.

Lemma invalid_identifier_only_from_decoding_witness :
  exists s,
    identifier_of (RefStr id_short_record) s /\
    ((exists e,
        decode sample_env s = Raise e /\ (caught e = true \/ e = FileIdInvalid))
     \/ binary_stage_failure sample_env s).
Proof.
  apply (invalid_identifier_only_from_decoding sample_env
           (RefStr id_short_record) DEFAULT_DOWNLOAD_DIR true PyNone []
           empty_world).
  vm_compute. reflexivity.
Defined.

(** X6. An identifier that decodes to no byte at all is not reported as an
    invalid identifier: [decoded[0]] raises [IndexError], the handler lets
    it through, and the store is left as it was. *)
Theorem empty_payload_raises_index_error
    env message s fname block progress args w :
  identifier_of message s ->
  decode env s = Ok [] ->
  download_media env message fname block progress args w
    = (w, Raised IndexError).
Proof.
  intros Hid Hdec.
  destruct (describe_of_identifier env message s Hid) as [data Hdesc].
  apply download_media_raised. rewrite Hdesc.
  unfold decode_file_id, decode_body. rewrite Hdec. reflexivity.
Qed.

Lemma empty_payload_raises_index_error_witness :
  download_media sample_env (RefStr "") DEFAULT_DOWNLOAD_DIR false PyNone []
    empty_world
  = (empty_world, Raised IndexError).
Proof.
  apply (empty_payload_raises_index_error sample_env (RefStr "") "").
  - exists (inl ""). split; reflexivity.
  - reflexivity.
Defined.

(** X7. A thumbnail record (tag 0, 2 or 14) of the right width whose last
    byte, the thumbnail character, is 0x80 or more is not decoded and not
    reported as an invalid identifier: [thumb_size.decode()] raises
    [UnicodeDecodeError], which the handler lets through; the store is left
    as it was. *)
Theorem thumbnail_character_must_be_ascii
    env message s decoded mt b fname block progress args w :
  identifier_of message s ->
  decode env s = Ok decoded ->
  index0 decoded = Ok mt ->
  int_in mt [0; 2; 14] = true ->
  length decoded = 25%nat ->
  decoded !! 24%nat = Some b ->
  128 <= byte_val b ->
  download_media env message fname block progress args w
    = (w, Raised UnicodeDecodeError).
Proof.
  intros [media [Hsel Hid]] Hdec Hidx Htag Hlen Hb Hhigh.
  apply download_media_raised.
  rewrite (describe_identifier env message media Hsel), Hid.
  destruct (initial_data_meta media) as (fname0 & fsize & mime & dt & Hmeta).
  rewrite Hmeta.
  rewrite (decode_thumbnail_location env s decoded mt b fname0 fsize mime dt
             Hdec Hidx Htag Hlen Hb).
  destruct (Z.ltb_spec (byte_val b) 128); [lia | reflexivity].
Qed.

Lemma thumbnail_character_must_be_ascii_witness :
  download_media sample_env (RefStr id_thumbnail_ff) DEFAULT_DOWNLOAD_DIR true
    PyNone [] empty_world
  = (empty_world, Raised UnicodeDecodeError).
Proof.
  apply (thumbnail_character_must_be_ascii sample_env (RefStr id_thumbnail_ff)
           id_thumbnail_ff (record_of id_thumbnail_ff) 2 (byte_of_Z 255)).
  - exists (inl id_thumbnail_ff). split; reflexivity.
  - vm_compute. reflexivity.
  - reflexivity.
  - reflexivity.
  - reflexivity.
  - reflexivity.
  - vm_compute. discriminate.
Defined.

(** X8. When the label table of the client has no entry for the tag of a
    decoded descriptor, the call raises [KeyError] on that tag. The event
    and the result list have been created by then, and nothing is put on
    the queue. *)
Theorem missing_label_raises_key_error
    env message data t fname block progress args w :
  describe env message = Ok data ->
  media_type data = Some t ->
  MEDIA_TYPE_ID env !! t = None ->
  download_media env message fname block progress args w =
    ({| download_queue := download_queue w;
        events := events w ++ [false];
        paths := paths w ++ [None] |},
     Raised (KeyError t)).
Proof.
  intros Hd Hmt Hnone.
  apply (download_media_label_raised_world env message fname block progress
           args w data (KeyError t) Hd).
  unfold media_type_label. rewrite Hmt, Hnone. reflexivity.
Qed.

Lemma missing_label_raises_key_error_witness :
  download_media unlabelled_env (RefStr id_document) DEFAULT_DOWNLOAD_DIR true
    PyNone [] empty_world
  = ({| download_queue := []; events := [false]; paths := [None] |},
     Raised (KeyError 5)).
Proof.
  apply (missing_label_raises_key_error unlabelled_env (RefStr id_document)
           document_data 5 DEFAULT_DOWNLOAD_DIR true PyNone [] empty_world).
  - vm_compute. reflexivity.
  - reflexivity.
  - vm_compute. reflexivity.
Defined.

Lemma variant_of_thumbnail (mt : Z) :
  variant_of mt = Some ThumbnailLocation <-> int_in mt [0; 2; 14] = true.
Proof.
  unfold variant_of.
  destruct (Z.eqb_spec mt 1) as [-> |]; [split; discriminate |].
  destruct (int_in mt [0; 2; 14]); [split; reflexivity |].
  destruct (int_in mt [3; 4; 5; 8; 9; 10; 13]); split; discriminate.
Qed.

Lemma variant_of_width (mt : Z) :
  record_width mt =
    match variant_of mt with
    | Some PhotoLocation => Some 29%nat
    | Some ThumbnailLocation => Some 25%nat
    | Some DocumentLocation => Some 24%nat
    | None => None
    end.
Proof.
  unfold record_width, variant_of.
  destruct (mt =? 1); [reflexivity |].
  destruct (int_in mt [0; 2; 14]); [reflexivity |].
  destruct (int_in mt [3; 4; 5; 8; 9; 10; 13]); reflexivity.
Qed.

(** X9. When [utils.decode] gives bytes, the identifier is decoded into a
    descriptor exactly when the bytes start with a recognized tag, have the
    width of that tag and, for a thumbnail record, end in a character below
    0x80. *)
Theorem decoding_succeeds_exactly_when env message s decoded :
  identifier_of message s ->
  decode env s = Ok decoded ->
  (exists data, describe env message = Ok data)
  <->
  (exists mt,
     index0 decoded = Ok mt /\
     record_width mt = Some (length decoded) /\
     (int_in mt [0; 2; 14] = true ->
      exists b, decoded !! 24%nat = Some b /\ byte_val b < 128)).
Proof.
  intros [media [Hsel Hid]] Hdec.
  rewrite (describe_identifier env message media Hsel), Hid.
  destruct (initial_data_meta media) as (fname & fsize & mime & dt & Hmeta).
  rewrite Hmeta. split.
  - intros [data Hdata].
    destruct (decode_file_id_ok_inv env s _ data Hdata)
      as (decoded' & mt & Hdec' & Hidx).
    rewrite Hdec in Hdec'. injection Hdec' as <-.
    destruct (decode_file_id_fields env s decoded mt fname fsize mime dt data
                Hdec Hidx Hdata) as [_ Hfields].
    exists mt. split; [exact Hidx |].
    rewrite variant_of_width.
    destruct (variant_of mt) as [[| |] |] eqn:Hv.
    + destruct Hfields as (-> & _). split; [reflexivity |].
      intros Htag. apply variant_of_thumbnail in Htag. congruence.
    + destruct Hfields as (-> & _ & _ & b & Hb & Hlow & _).
      split; [reflexivity |]. intros _. exists b. auto.
    + destruct Hfields as (-> & _). split; [reflexivity |].
      intros Htag. apply variant_of_thumbnail in Htag. congruence.
    + destruct Hfields.
  - intros (mt & Hidx & Hw & Hthumb).
    destruct (decode_total_on_width env s decoded mt fname fsize mime dt
                Hdec Hidx Hw) as [Hok | (Hv & (b & Hb & Hhigh) & _)];
      [exact Hok |].
    apply variant_of_thumbnail in Hv.
    destruct (Hthumb Hv) as (b' & Hb' & Hlow).
    rewrite Hb in Hb'. injection Hb' as <-. lia.
Qed.

Lemma decoding_succeeds_exactly_when_witness :
  (exists data, describe sample_env (RefStr id_document) = Ok data)
  <->
  (exists mt,
     index0 (record_of id_document) = Ok mt /\
     record_width mt = Some (length (record_of id_document)) /\
     (int_in mt [0; 2; 14] = true ->
      exists b, record_of id_document !! 24%nat = Some b /\ byte_val b < 128)).
Proof.
  apply (decoding_succeeds_exactly_when sample_env (RefStr id_document)
           id_document (record_of id_document)).
  - exists (inl id_document). split; reflexivity.
  - vm_compute. reflexivity.
Defined.

(** X10. The decoding never touches what the media object says about
    itself: the descriptor of a dispatched request has the file name, the
    size, the MIME type and the date of the media object, an attribute that
    the object lacks being the empty string for the file name and absent for
    the other three. *)
Theorem metadata_carried_to_the_request
    env message (m : Media) fname block progress args w req :
  select_media message = Ok (inr m) ->
  dispatched env message fname block progress args w req ->
  file_name (req_data req) = getattr (media_file_name m) (Some "") /\
  file_size (req_data req) = getattr (media_file_size m) None /\
  mime_type (req_data req) = getattr (media_mime_type m) None /\
  date (req_data req) = getattr (media_date m) None.
Proof.
  intros Hsel Hdisp.
  destruct (dispatched_inv _ _ _ _ _ _ _ _ Hdisp) as (data & label & Hd & _ & _ & ->).
  cbn [request_of req_data].
  rewrite (describe_identifier env message (inr m) Hsel) in Hd.
  cbn [initial_data fst snd] in Hd.
  destruct (decode_file_id_ok_inv env _ _ data Hd) as (decoded & mt & Hdec & Hidx).
  destruct (decode_file_id_shape env _ decoded mt _ _ _ _ data Hdec Hidx Hd)
    as (_ & _ & _ & _ & Hn & Hs & Hm & Hdt).
  auto.
Qed.

Lemma metadata_carried_to_the_request_witness :
  let req :=
    request_of sample_env report_data "document" "" PyNone [] empty_world in
  file_name (req_data req) = Some "report.pdf" /\
  file_size (req_data req) = Some 52311 /\
  mime_type (req_data req) = Some "application/pdf" /\
  date (req_data req) = Some 1546300800.
Proof.
  intros req.
  apply (metadata_carried_to_the_request sample_env (RefMedia report_media)
           report_media "" true PyNone [] empty_world req).
  - reflexivity.
  - vm_compute. reflexivity.
Defined.

(** X11. A document record (tag 3, 4, 5, 8, 9, 10 or 13) of 24 bytes is
    always decoded: [dc_id] is the 32-bit integer at byte 4, [document_id]
    and [access_hash] the 64-bit integers at bytes 8 and 16, all signed and
    little-endian, and the descriptor has no thumbnail size and no photo
    field. What the record has in bytes 1 to 3 is not looked at. *)
Theorem document_record_layout env message s decoded mt :
  identifier_of message s ->
  decode env s = Ok decoded ->
  index0 decoded = Ok mt ->
  int_in mt [3; 4; 5; 8; 9; 10; 13] = true ->
  length decoded = 24%nat ->
  exists data,
    describe env message = Ok data /\
    media_type data = Some mt /\
    dc_id data = Some (int_field fmt_i 4 decoded) /\
    document_id data = Some (int_field fmt_q 8 decoded) /\
    access_hash data = Some (int_field fmt_q 16 decoded) /\
    thumb_size data = None /\
    peer_id data = None /\ volume_id data = None /\
    local_id data = None /\ is_big data = None.
Proof.
  intros [media [Hsel Hid]] Hdec Hidx Htag Hlen.
  rewrite (describe_identifier env message media Hsel), Hid.
  destruct (initial_data_meta media) as (fname & fsize & mime & dt & Hmeta).
  rewrite Hmeta.
  rewrite (decode_document_location env s decoded mt fname fsize mime dt
             Hdec Hidx Htag Hlen).
  eexists. split; [reflexivity |]. repeat split.
Qed.

Lemma document_record_layout_witness :
  exists data,
    describe sample_env (RefStr id_audio) = Ok data /\
    media_type data = Some 9 /\
    dc_id data = Some 2 /\
    document_id data = Some 5001 /\
    access_hash data = Some (-10) /\
    thumb_size data = None /\
    peer_id data = None /\ volume_id data = None /\
    local_id data = None /\ is_big data = None.
Proof.
  apply (document_record_layout sample_env (RefStr id_audio) id_audio
           (record_of id_audio) 9).
  - exists (inl id_audio). split; reflexivity.
  - vm_compute. reflexivity.
  - reflexivity.
  - reflexivity.
  - reflexivity.
Defined.

(** X12. A thumbnail record (tag 0, 2 or 14) of 25 bytes whose last byte
    is below 0x80 is decoded: [dc_id] is the 32-bit integer at byte 4,
    [document_id] and [access_hash] the 64-bit integers at bytes 8 and 16,
    [thumb_size] the one character of byte 24, and the descriptor has no
    photo field. *)
Theorem thumbnail_record_layout env message s decoded mt b :
  identifier_of message s ->
  decode env s = Ok decoded ->
  index0 decoded = Ok mt ->
  int_in mt [0; 2; 14] = true ->
  length decoded = 25%nat ->
  decoded !! 24%nat = Some b ->
  byte_val b < 128 ->
  exists data,
    describe env message = Ok data /\
    media_type data = Some mt /\
    dc_id data = Some (int_field fmt_i 4 decoded) /\
    document_id data = Some (int_field fmt_q 8 decoded) /\
    access_hash data = Some (int_field fmt_q 16 decoded) /\
    thumb_size data = Some (String (Ascii.ascii_of_byte b) EmptyString) /\
    peer_id data = None /\ volume_id data = None /\
    local_id data = None /\ is_big data = None.
Proof.
  intros [media [Hsel Hid]] Hdec Hidx Htag Hlen Hb Hlow.
  rewrite (describe_identifier env message media Hsel), Hid.
  destruct (initial_data_meta media) as (fname & fsize & mime & dt & Hmeta).
  rewrite Hmeta.
  rewrite (decode_thumbnail_location env s decoded mt b fname fsize mime dt
             Hdec Hidx Htag Hlen Hb).
  destruct (Z.ltb_spec (byte_val b) 128); [| lia].
  eexists. split; [reflexivity |]. repeat split.
Qed.

Lemma thumbnail_record_layout_witness :
  exists data,
    describe sample_env (RefStr id_thumbnailed_photo) = Ok data /\
    media_type data = Some 2 /\
    dc_id data = Some 4 /\
    document_id data = Some 1001 /\
    access_hash data = Some (-77) /\
    thumb_size data = Some "x" /\
    peer_id data = None /\ volume_id data = None /\
    local_id data = None /\ is_big data = None.
Proof.
  apply (thumbnail_record_layout sample_env (RefStr id_thumbnailed_photo)
           id_thumbnailed_photo (record_of id_thumbnailed_photo) 2
           (byte_of_Z 120)).
  - exists (inl id_thumbnailed_photo). split; reflexivity.
  - vm_compute. reflexivity.
  - reflexivity.
  - reflexivity.
  - reflexivity.
  - reflexivity.
  - vm_compute. reflexivity.
Defined.

(** X13. The integers of a decoded descriptor are in the range of their
    format: [dc_id] and [local_id] are signed 32-bit values, [peer_id],
    [volume_id], [document_id] and [access_hash] signed 64-bit values. *)
Theorem decoded_integers_in_range env message data :
  describe env message = Ok data ->
  (forall z, dc_id data = Some z -> - 2 ^ 31 <= z < 2 ^ 31) /\
  (forall z, local_id data = Some z -> - 2 ^ 31 <= z < 2 ^ 31) /\
  (forall z, peer_id data = Some z -> - 2 ^ 63 <= z < 2 ^ 63) /\
  (forall z, volume_id data = Some z -> - 2 ^ 63 <= z < 2 ^ 63) /\
  (forall z, document_id data = Some z -> - 2 ^ 63 <= z < 2 ^ 63) /\
  (forall z, access_hash data = Some z -> - 2 ^ 63 <= z < 2 ^ 63).
Proof.
  unfold describe.
  destruct (select_media message) as [media | e]; [| discriminate].
  cbn [bind].
  destruct (initial_data_meta media) as (fname & fsize & mime & dt & Hmeta).
  destruct (initial_data media) as [s data0]. cbn [snd] in Hmeta. subst data0.
  intros Hdata.
  destruct (decode_file_id_ok_inv env s _ data Hdata)
    as (decoded & mt & Hdec & Hidx).
  destruct (decode_file_id_shape env s decoded mt fname fsize mime dt data
              Hdec Hidx Hdata) as (v & Hv & _ & Hshape & _).
  destruct (decode_file_id_fields env s decoded mt fname fsize mime dt data
              Hdec Hidx Hdata) as [Hdc Hfields].
  rewrite Hv in Hfields. unfold populated in Hshape.
  pose proof (int_field_i_range 4 decoded).
  pose proof (int_field_i_range 24 decoded).
  pose proof (int_field_q_range 8 decoded).
  pose proof (int_field_q_range 16 decoded).
  destruct v; cbn [shape] in Hshape; injection Hshape as
      _ Hpeer Hvol Hloc _ Hdoc Hhash _.
  - destruct Hfields as (_ & Hp & Hvo & Hl & _).
    destruct (document_id data); [discriminate |].
    destruct (access_hash data); [discriminate |].
    rewrite Hdc, Hp, Hvo, Hl.
    repeat match goal with |- _ /\ _ => split end; intros x [= <-]; lia.
  - destruct Hfields as (_ & Hd & Hh & _).
    destruct (peer_id data); [discriminate |].
    destruct (volume_id data); [discriminate |].
    destruct (local_id data); [discriminate |].
    rewrite Hdc, Hd, Hh.
    repeat match goal with |- _ /\ _ => split end; intros x [= <-]; lia.
  - destruct Hfields as (_ & Hd & Hh).
    destruct (peer_id data); [discriminate |].
    destruct (volume_id data); [discriminate |].
    destruct (local_id data); [discriminate |].
    rewrite Hdc, Hd, Hh.
    repeat match goal with |- _ /\ _ => split end; intros x [= <-]; lia.
Qed.

Lemma decoded_integers_in_range_witness :
  (forall z, dc_id photo_data = Some z -> - 2 ^ 31 <= z < 2 ^ 31) /\
  (forall z, local_id photo_data = Some z -> - 2 ^ 31 <= z < 2 ^ 31) /\
  (forall z, peer_id photo_data = Some z -> - 2 ^ 63 <= z < 2 ^ 63) /\
  (forall z, volume_id photo_data = Some z -> - 2 ^ 63 <= z < 2 ^ 63) /\
  (forall z, document_id photo_data = Some z -> - 2 ^ 63 <= z < 2 ^ 63) /\
  (forall z, access_hash photo_data = Some z -> - 2 ^ 63 <= z < 2 ^ 63).
Proof.
  apply (decoded_integers_in_range sample_env (RefStr id_photo) photo_data).
  vm_compute. reflexivity.
Defined.

(** ** The target and the name, once more *)

Lemma cut_last_sep_app (p : string) :
  fst (cut_last_sep p) +:+ snd (cut_last_sep p) = p.
Proof.
  induction p as [| c p IH]; [reflexivity |].
  cbn [cut_last_sep]. destruct (cut_last_sep p) as [h t]. cbn [fst snd] in IH.
  destruct (str_truthy h) eqn:Hh.
  - cbn [fst snd]. change (String c (h +:+ t) = String c p).
    rewrite IH. reflexivity.
  - apply str_truthy_false in Hh. subst h. change (t = p) in IH. subst t.
    destruct (Ascii.eqb c sep); reflexivity.
Qed.

(** The file name component that [os.path.split] gives never starts with a
    slash. *)
Lemma split_tail_not_absolute (p : string) :
  os_path_isabs (snd (os_path_split p)) = false.
Proof.
  unfold os_path_split.
  assert (H : os_path_isabs (snd (cut_last_sep p)) = false).
  { induction p as [| c p IH]; [reflexivity |].
    pose proof (cut_last_sep_app p) as Happ.
    cbn [cut_last_sep]. destruct (cut_last_sep p) as [h t].
    cbn [fst snd] in *.
    destruct (str_truthy h) eqn:Hh; [exact IH |].
    apply str_truthy_false in Hh. subst h. change (t = p) in Happ. subst t.
    destruct (Ascii.eqb c sep) eqn:Hc; cbn [snd]; [exact IH |].
    cbn [os_path_isabs]. exact Hc. }
  destruct (cut_last_sep p) as [h t]. exact H.
Qed.

(** X14. When the caller's path names a file, the request has that name
    as given, and its directory is the caller's directory put under the
    base directory of the client ("downloads/" when the path has no
    directory), also when the caller's path is absolute: the test for an
    absolute path is made on the file name, which never starts with a
    slash. *)
Theorem caller_file_name_goes_under_parent_dir
    env message fname block progress args w req :
  dispatched env message fname block progress args w req ->
  snd (os_path_split fname) <> "" ->
  req_file_name req = snd (os_path_split fname) /\
  req_directory req =
    DirPath (PARENT_DIR env)
      (str_or (fst (os_path_split fname)) DEFAULT_DOWNLOAD_DIR).
Proof.
  intros Hdisp Hname.
  destruct (dispatched_target _ _ _ _ _ _ _ _ Hdisp) as (Hn & _ & Hdir).
  assert (Hspec : spec_file_name fname (req_data req) = snd (os_path_split fname)).
  { unfold spec_file_name.
    destruct (snd (os_path_split fname)); [contradiction | reflexivity]. }
  rewrite Hspec in Hn, Hdir.
  split; [exact (Hn Hname) |].
  rewrite Hdir, split_tail_not_absolute.
  unfold spec_directory, str_or, DEFAULT_DOWNLOAD_DIR.
  rewrite str_truthy_eqb.
  destruct (str_truthy (fst (os_path_split fname))); reflexivity.
Qed.

Lemma caller_file_name_goes_under_parent_dir_witness :
  let req :=
    request_of sample_env photo_data "photo" "/tmp/in/x.bin" PyNone []
      empty_world in
  req_file_name req = "x.bin" /\
  req_directory req = DirPath "/srv/bot" "/tmp/in".
Proof.
  intros req.
  apply (caller_file_name_goes_under_parent_dir sample_env (RefStr id_photo)
           "/tmp/in/x.bin" false PyNone [] empty_world req).
  - vm_compute. reflexivity.
  - vm_compute. discriminate.
Defined.

(** X15. For a bare identifier string and a caller's path without a file
    name, the name of the request is the label of the tag, the current time
    formatted, the random id and an extension, joined by underscores; the
    extension is chosen with the guess made on no MIME type at all, and the
    directory is under the base directory of the client. *)
Theorem bare_identifier_synthesized_name
    env (s : string) fname block progress args w req :
  dispatched env (RefStr s) fname block progress args w req ->
  snd (os_path_split fname) = "" ->
  exists mt label,
    media_type (req_data req) = Some mt /\
    MEDIA_TYPE_ID env !! mt = Some label /\
    req_file_name req =
      label +:+ "_" +:+ strftime env (time_time env) +:+ "_"
        +:+ str_of_int (rnd_id env)
        +:+ choose_extension (Some mt) (guess_extension env None) /\
    req_directory req =
      DirPath (PARENT_DIR env)
        (str_or (fst (os_path_split fname)) DEFAULT_DOWNLOAD_DIR).
Proof.
  intros Hdisp Hname.
  destruct (dispatched_inv _ _ _ _ _ _ _ _ Hdisp)
    as (data & label0 & Hd & _ & _ & Hreq).
  assert (Hdata : req_data req = data) by (rewrite Hreq; reflexivity).
  assert (Hmeta : file_name data = None /\ mime_type data = None /\
                  date data = None).
  { unfold describe in Hd. cbn [select_media bind initial_data] in Hd.
    destruct (decode_file_id_ok_inv env s _ data Hd)
      as (decoded & mt & Hdec & Hidx).
    destruct (decode_file_id_shape env s decoded mt None None None None data
                Hdec Hidx Hd) as (_ & _ & _ & _ & Hn & _ & Hm & Hdt).
    auto. }
  destruct Hmeta as (Hn & Hm & Hdt).
  assert (Hspec : spec_file_name fname (req_data req) = "").
  { unfold spec_file_name. rewrite Hname, Hdata, Hn. reflexivity. }
  destruct (synthesized_name _ _ _ _ _ _ _ _ Hdisp Hspec)
    as (mt & label & Hmt & _ & Hlabel & Hfile).
  destruct (dispatched_target _ _ _ _ _ _ _ _ Hdisp) as (_ & _ & Hdir).
  exists mt, label. split; [exact Hmt |]. split; [exact Hlabel |]. split.
  - rewrite Hfile, Hdata. unfold date_or_now. rewrite Hdt, Hm. reflexivity.
  - rewrite Hdir, Hspec. cbn [os_path_isabs].
    unfold spec_directory, str_or, DEFAULT_DOWNLOAD_DIR.
    rewrite str_truthy_eqb.
    destruct (str_truthy (fst (os_path_split fname))); reflexivity.
Qed.

Lemma bare_identifier_synthesized_name_witness :
  let req :=
    request_of sample_env photo_data "photo" DEFAULT_DOWNLOAD_DIR PyNone []
      empty_world in
  exists mt label,
    media_type (req_data req) = Some mt /\
    MEDIA_TYPE_ID sample_env !! mt = Some label /\
    req_file_name req =
      label +:+ "_" +:+ strftime sample_env (time_time sample_env) +:+ "_"
        +:+ str_of_int (rnd_id sample_env)
        +:+ choose_extension (Some mt) (guess_extension sample_env None) /\
    req_directory req =
      DirPath (PARENT_DIR sample_env)
        (str_or (fst (os_path_split DEFAULT_DOWNLOAD_DIR)) DEFAULT_DOWNLOAD_DIR).
Proof.
  intros req.
  apply (bare_identifier_synthesized_name sample_env id_photo
           DEFAULT_DOWNLOAD_DIR true PyNone [] empty_world req).
  - vm_compute. reflexivity.
  - vm_compute. reflexivity.
Defined.

(** X16. Two calls one after the other. The queue has the two requests in
    the order of the calls; the two requests have different events and
    different result lists; the completion of the second request does not
    wake the first call, which is blocking, and once both are completed
    the first call returns the result of the first request and the slot of
    the second holds the result of the second. *)
Theorem two_calls_do_not_interfere
    env1 message1 fname1 progress1 args1
    env2 message2 fname2 block2 progress2 args2 w req1 req2 :
  dispatched env1 message1 fname1 true progress1 args1 w req1 ->
  dispatched env2 message2 fname2 block2 progress2 args2
    (fst (download_media env1 message1 fname1 true progress1 args1 w)) req2 ->
  let call1 := download_media env1 message1 fname1 true progress1 args1 w in
  let w2 :=
    fst (download_media env2 message2 fname2 block2 progress2 args2
           (fst call1)) in
  download_queue w2 = download_queue w ++ [req1; req2] /\
  req_done req1 <> req_done req2 /\
  req_path req1 <> req_path req2 /\
  (forall res2, resume (worker_finish req2 res2 w2) (snd call1) = snd call1) /\
  (forall res1 res2,
     resume (worker_finish req1 res1 (worker_finish req2 res2 w2)) (snd call1)
       = Returned res1 /\
     read_path (worker_finish req1 res1 (worker_finish req2 res2 w2))
       (req_path req2) = res2).
Proof.
  intros Hdisp1 Hdisp2. cbv zeta.
  destruct (dispatched_inv _ _ _ _ _ _ _ _ Hdisp1)
    as (data1 & label1 & Hd1 & Hl1 & Hn1 & ->).
  destruct (dispatched_inv _ _ _ _ _ _ _ _ Hdisp2)
    as (data2 & label2 & Hd2 & Hl2 & Hn2 & ->).
  rewrite (download_media_dispatched env2 message2 fname2 block2 progress2
             args2 _ data2 label2 Hd2 Hl2 Hn2).
  rewrite (download_media_dispatched env1 message1 fname1 true progress1 args1
             w data1 label1 Hd1 Hl1 Hn1).
  cbn [fst snd download_queue events paths request_of req_done req_path].
  destruct w as [q evs ps]. cbn [download_queue events paths] in *.
  rewrite !length_app. cbn [length].
  split; [rewrite <- app_assoc; reflexivity |].
  split; [lia |]. split; [lia |].
  unfold resume, is_set, read_path, worker_finish.
  cbn [events paths req_done req_path request_of].
  rewrite !length_app. cbn [length].
  split.
  - intros res2.
    rewrite list_lookup_insert_ne by lia.
    rewrite lookup_app_l by (rewrite length_app; simpl; lia).
    rewrite list_lookup_middle by reflexivity. reflexivity.
  - intros res1 res2. split.
    + rewrite list_lookup_insert_eq
        by (rewrite length_insert, !length_app; simpl; lia).
      rewrite list_lookup_insert_eq
        by (rewrite length_insert, !length_app; simpl; lia).
      reflexivity.
    + rewrite list_lookup_insert_ne by lia.
      rewrite list_lookup_insert_eq by (rewrite !length_app; simpl; lia).
      reflexivity.
Qed.

Lemma two_calls_do_not_interfere_witness :
  let call1 :=
    download_media sample_env (RefStr id_photo) "" true PyNone [] empty_world in
  let req1 :=
    request_of sample_env photo_data "photo" "" PyNone [] empty_world in
  let req2 :=
    request_of sample_env report_data "document" "" (PyCallable 1) [PyInt 7]
      (fst call1) in
  let w2 :=
    fst (download_media sample_env (RefMedia report_media) "" false
           (PyCallable 1) [PyInt 7] (fst call1)) in
  download_queue w2 = [req1; req2] /\
  req_done req1 <> req_done req2 /\
  req_path req1 <> req_path req2 /\
  (forall res2, resume (worker_finish req2 res2 w2) (snd call1) = snd call1) /\
  (forall res1 res2,
     resume (worker_finish req1 res1 (worker_finish req2 res2 w2)) (snd call1)
       = Returned res1 /\
     read_path (worker_finish req1 res1 (worker_finish req2 res2 w2))
       (req_path req2) = res2).
Proof.
  intros call1 req1 req2 w2.
  apply (two_calls_do_not_interfere
           sample_env (RefStr id_photo) "" PyNone []
           sample_env (RefMedia report_media) "" false (PyCallable 1) [PyInt 7]
           empty_world req1 req2).
  - vm_compute. reflexivity.
  - vm_compute. reflexivity.
Defined.

Lemma first_media_some (kinds : list kind) (m : Message) (k : kind)
    (media : Media) :
  In k kinds ->
  getattr_kind m k = Some media ->
  exists k' media',
    In k' kinds /\ getattr_kind m k' = Some media' /\
    first_media kinds m = Some media'.
Proof.
  intros Hin Hk.
  induction kinds as [| k0 kinds IH]; [destruct Hin |].
  cbn [first_media].
  destruct (getattr_kind m k0) as [media0 |] eqn:H0.
  - exists k0, media0. split; [left; reflexivity | auto].
  - destruct Hin as [-> | Hin]; [congruence |].
    destruct (IH Hin) as (k' & media' & Hin' & Hk' & Hfirst).
    exists k', media'. split; [right; exact Hin' | auto].
Qed.

(** X17. A [Message] with at least one of its media attributes present is
    never refused for lack of media: the call on the message is the call on
    one of the media objects that the message has. *)
Theorem message_with_media_is_downloaded
    env (m : Message) (k : kind) (media : Media) fname block progress args w :
  getattr_kind m k = Some media ->
  exists k' media',
    getattr_kind m k' = Some media' /\
    select_media (RefMessage m) = Ok (inr media') /\
    download_media env (RefMessage m) fname block progress args w
      = download_media env (RefMedia media') fname block progress args w.
Proof.
  intros Hk.
  assert (Hin : In k available_media).
  { unfold available_media. destruct k; cbn; tauto. }
  destruct (first_media_some available_media m k media Hin Hk)
    as (k' & media' & _ & Hk' & Hfirst).
  exists k', media'. split; [exact Hk' |].
  unfold download_media, describe, select_media. rewrite Hfirst. auto.
Qed.

Lemma message_with_media_is_downloaded_witness :
  exists k' media',
    getattr_kind two_media_message k' = Some media' /\
    select_media (RefMessage two_media_message) = Ok (inr media') /\
    download_media sample_env (RefMessage two_media_message) "" true PyNone []
        empty_world
      = download_media sample_env (RefMedia media') "" true PyNone []
          empty_world.
Proof.
  apply (message_with_media_is_downloaded sample_env two_media_message video
           {| file_id := "BAAAAAEAAAAqAAAAAAAAACsAAAAAAAAA";
              media_file_name := Missing;
              media_file_size := Has None;
              media_mime_type := Has (Some "video/webm");
              media_date := Has None |}).
  reflexivity.
Defined.

Lemma describe_depends_on_decode env1 env2 message :
  (forall s, decode env1 s = decode env2 s) ->
  describe env1 message = describe env2 message.
Proof.
  intros Hdec. unfold describe.
  destruct (select_media message) as [media | e]; [| reflexivity].
  cbn [bind]. destruct (initial_data media) as [s data].
  unfold decode_file_id, decode_body. rewrite Hdec. reflexivity.
Qed.

(** X18. When a file name is at hand, from the caller's path or from the
    media object, the clock, the random id, the formatting of dates and the
    guess of extensions play no part: two clients that agree on
    [utils.decode], on the label table and on the base directory make the
    same request and end the same way. *)
Theorem supplied_name_ignores_clock_and_random
    env1 env2 message fname block progress args w req :
  (forall s, decode env1 s = decode env2 s) ->
  MEDIA_TYPE_ID env1 = MEDIA_TYPE_ID env2 ->
  PARENT_DIR env1 = PARENT_DIR env2 ->
  dispatched env1 message fname block progress args w req ->
  spec_file_name fname (req_data req) <> "" ->
  download_media env2 message fname block progress args w
    = download_media env1 message fname block progress args w.
Proof.
  intros Hdec Htable Hparent Hdisp Hname.
  destruct (dispatched_inv _ _ _ _ _ _ _ _ Hdisp)
    as (data & label & Hd & Hl & Hn & ->).
  cbn [request_of req_data] in Hname.
  assert (Hd2 : describe env2 message = Ok data)
    by (rewrite <- (describe_depends_on_decode env1 env2 message Hdec); exact Hd).
  assert (Hl2 : media_type_label env2 data = Ok label)
    by (unfold media_type_label in *; rewrite <- Htable; exact Hl).
  assert (Hn2 : name_error env2 data fname = None).
  { unfold name_error. rewrite resolve_target_file_name.
    destruct (str_truthy (spec_file_name fname data)) eqn:Htruthy;
      [reflexivity |].
    apply str_truthy_false in Htruthy. contradiction. }
  rewrite (download_media_dispatched env1 message fname block progress args w
             data label Hd Hl Hn).
  rewrite (download_media_dispatched env2 message fname block progress args w
             data label Hd2 Hl2 Hn2).
  assert (Hreq : request_of env2 data label fname progress args w
                 = request_of env1 data label fname progress args w).
  { unfold request_of.
    assert (Ht : resolve_target env2 data fname = resolve_target env1 data fname)
      by (unfold resolve_target; rewrite Hparent; reflexivity).
    rewrite Ht, resolve_target_file_name.
    destruct (str_truthy (spec_file_name fname data)) eqn:Htruthy;
      [reflexivity |].
    apply str_truthy_false in Htruthy. contradiction. }
  rewrite Hreq. reflexivity.
Qed.

Lemma supplied_name_ignores_clock_and_random_witness :
  download_media later_env (RefMedia report_media) DEFAULT_DOWNLOAD_DIR true
      PyNone [] empty_world
    = download_media sample_env (RefMedia report_media) DEFAULT_DOWNLOAD_DIR
        true PyNone [] empty_world.
Proof.
  apply (supplied_name_ignores_clock_and_random sample_env later_env
           (RefMedia report_media) DEFAULT_DOWNLOAD_DIR true PyNone []
           empty_world
           (request_of sample_env report_data "document" DEFAULT_DOWNLOAD_DIR
              PyNone [] empty_world)).
  - intros s. reflexivity.
  - reflexivity.
  - reflexivity.
  - vm_compute. reflexivity.
  - vm_compute. discriminate.
Defined.

(** ** Nothing of the fields is lost *)

Lemma byte_val_inj (a b : byte) : byte_val a = byte_val b -> a = b.
Proof.
  unfold byte_val. intros H. apply N2Z.inj in H.
  pose proof (Byte.of_to_N a) as Ha. pose proof (Byte.of_to_N b) as Hb.
  rewrite H in Ha. congruence.
Qed.

Lemma le_unsigned_inj (a b : bytes) :
  length a = length b -> le_unsigned a = le_unsigned b -> a = b.
Proof.
  revert b. induction a as [| x a IH]; intros [| y b] Hlen Heq;
    try discriminate; [reflexivity |].
  cbn [le_unsigned] in Heq. cbn [length] in Hlen.
  pose proof (byte_val_range x). pose proof (byte_val_range y).
  assert (Hxy : byte_val x = byte_val y) by lia.
  assert (Hab : le_unsigned a = le_unsigned b) by lia.
  f_equal; [exact (byte_val_inj x y Hxy) | apply IH; [lia | exact Hab]].
Qed.

Lemma to_signed_inj (w u v : Z) :
  0 < w -> 0 <= u < 2 ^ w -> 0 <= v < 2 ^ w ->
  to_signed w u = to_signed w v -> u = v.
Proof.
  intros Hw Hu Hv. unfold to_signed.
  assert (Hpow : 2 ^ w = 2 * 2 ^ (w - 1)).
  { replace w with (Z.succ (w - 1)) at 1 by lia. apply Z.pow_succ_r. lia. }
  destruct (Z.ltb_spec u (2 ^ (w - 1))), (Z.ltb_spec v (2 ^ (w - 1))); lia.
Qed.

(** Two integer fields with the same value were read from the same bytes. *)
Lemma int_field_inj (c : fmt_code) (off : nat) (a b : bytes) :
  c <> fmt_c ->
  (off + code_size c <= length a)%nat ->
  (off + code_size c <= length b)%nat ->
  int_field c off a = int_field c off b ->
  take (code_size c) (drop off a) = take (code_size c) (drop off b).
Proof.
  intros Hc Ha Hb Heq.
  assert (Hla : length (take (code_size c) (drop off a)) = code_size c)
    by (rewrite length_take, length_drop; lia).
  assert (Hlb : length (take (code_size c) (drop off b)) = code_size c)
    by (rewrite length_take, length_drop; lia).
  pose proof (le_unsigned_take_bound (code_size c) (drop off a)) as Hra.
  pose proof (le_unsigned_take_bound (code_size c) (drop off b)) as Hrb.
  apply le_unsigned_inj; [congruence |].
  unfold int_field in Heq.
  destruct c; cbn [unpack_field code_size] in *; try contradiction.
  - apply (to_signed_inj 32); [lia | exact Hra | exact Hrb | exact Heq].
  - apply (to_signed_inj 64); [lia | exact Hra | exact Hrb | exact Heq].
  - apply (to_signed_inj 8); [lia | exact Hra | exact Hrb | exact Heq].
Qed.

Lemma variant_of_document (mt : Z) :
  int_in mt [3; 4; 5; 8; 9; 10; 13] = true ->
  variant_of mt = Some DocumentLocation.
Proof.
  unfold int_in. cbn [existsb]. intros H.
  repeat match type of H with
  | context [Z.eqb mt ?k] =>
      destruct (Z.eqb_spec mt k); [subst mt; reflexivity |]
  end.
  discriminate.
Qed.

Lemma document_record_split (a : bytes) :
  length a = 24%nat ->
  drop 4 a = take 4 (drop 4 a) ++ take 8 (drop 8 a) ++ take 8 (drop 16 a).
Proof.
  intros Hlen.
  rewrite <- (take_drop 4 (drop 4 a)) at 1. rewrite drop_drop. f_equal.
  rewrite <- (take_drop 8 (drop (4 + 4) a)) at 1. rewrite drop_drop. f_equal.
  cbn [Nat.add].
  rewrite (take_ge (drop 16 a)) by (rewrite length_drop; lia). reflexivity.
Qed.

(** X19. The descriptor of a document record keeps all of the record but
    bytes 1 to 3: two identifiers that are decoded into descriptors with the
    same document tag, the same [dc_id], the same [document_id] and the
    same [access_hash] have the same first byte and the same bytes from
    byte 4 on. *)
Theorem document_fields_determine_the_record
    env message1 message2 s1 s2 a b d1 d2 mt :
  identifier_of message1 s1 -> decode env s1 = Ok a ->
  identifier_of message2 s2 -> decode env s2 = Ok b ->
  describe env message1 = Ok d1 ->
  describe env message2 = Ok d2 ->
  int_in mt [3; 4; 5; 8; 9; 10; 13] = true ->
  media_type d1 = Some mt -> media_type d2 = Some mt ->
  dc_id d1 = dc_id d2 ->
  document_id d1 = document_id d2 ->
  access_hash d1 = access_hash d2 ->
  index0 a = index0 b /\ drop 4 a = drop 4 b.
Proof.
  intros [media1 [Hsel1 Hid1]] Hdec1 [media2 [Hsel2 Hid2]] Hdec2 Hd1 Hd2
    Htag Hmt1 Hmt2 Hdc Hdoc Hhash.
  rewrite (describe_identifier env message1 media1 Hsel1), Hid1 in Hd1.
  rewrite (describe_identifier env message2 media2 Hsel2), Hid2 in Hd2.
  destruct (initial_data_meta media1) as (n1 & z1 & m1 & t1 & Hmeta1).
  destruct (initial_data_meta media2) as (n2 & z2 & m2 & t2 & Hmeta2).
  rewrite Hmeta1 in Hd1. rewrite Hmeta2 in Hd2.
  destruct (decode_file_id_ok_inv env s1 _ d1 Hd1) as (a' & mt1 & Ha' & Hidx1).
  destruct (decode_file_id_ok_inv env s2 _ d2 Hd2) as (b' & mt2 & Hb' & Hidx2).
  rewrite Hdec1 in Ha'. injection Ha' as <-.
  rewrite Hdec2 in Hb'. injection Hb' as <-.
  destruct (decode_file_id_shape env s1 a mt1 _ _ _ _ d1 Hdec1 Hidx1 Hd1)
    as (_ & _ & Hm1 & _).
  destruct (decode_file_id_shape env s2 b mt2 _ _ _ _ d2 Hdec2 Hidx2 Hd2)
    as (_ & _ & Hm2 & _).
  assert (mt1 = mt) by congruence. assert (mt2 = mt) by congruence.
  subst mt1 mt2.
  destruct (decode_file_id_fields env s1 a mt _ _ _ _ d1 Hdec1 Hidx1 Hd1)
    as [Hdc1 Hf1].
  destruct (decode_file_id_fields env s2 b mt _ _ _ _ d2 Hdec2 Hidx2 Hd2)
    as [Hdc2 Hf2].
  rewrite (variant_of_document mt Htag) in Hf1, Hf2.
  destruct Hf1 as (Hla & Hdoc1 & Hhash1).
  destruct Hf2 as (Hlb & Hdoc2 & Hhash2).
  split; [congruence |].
  rewrite (document_record_split a Hla), (document_record_split b Hlb).
  assert (Hi : int_field fmt_i 4 a = int_field fmt_i 4 b) by congruence.
  assert (Hq1 : int_field fmt_q 8 a = int_field fmt_q 8 b) by congruence.
  assert (Hq2 : int_field fmt_q 16 a = int_field fmt_q 16 b) by congruence.
  apply (int_field_inj fmt_i 4 a b) in Hi;
    [| discriminate | cbn; lia | cbn; lia].
  apply (int_field_inj fmt_q 8 a b) in Hq1;
    [| discriminate | cbn; lia | cbn; lia].
  apply (int_field_inj fmt_q 16 a b) in Hq2;
    [| discriminate | cbn; lia | cbn; lia].
  cbn [code_size] in Hi, Hq1, Hq2. rewrite Hi, Hq1, Hq2. reflexivity.
Qed.

Lemma document_fields_determine_the_record_witness :
  id_document <> id_document_high /\
  index0 (record_of id_document) = index0 (record_of id_document_high) /\
  drop 4 (record_of id_document) = drop 4 (record_of id_document_high).
Proof.
  split; [vm_compute; discriminate |].
  apply (document_fields_determine_the_record sample_env
           (RefStr id_document) (RefStr id_document_high)
           id_document id_document_high
           (record_of id_document) (record_of id_document_high)
           document_data document_data 5).
  - exists (inl id_document). split; reflexivity.
  - vm_compute. reflexivity.
  - exists (inl id_document_high). split; reflexivity.
  - vm_compute. reflexivity.
  - vm_compute. reflexivity.
  - vm_compute. reflexivity.
  - reflexivity.
  - reflexivity.
  - reflexivity.
  - reflexivity.
  - reflexivity.
  - reflexivity.
Defined.

(** X20. In a photo record (tag 1, 29 bytes) the flag [is_big] is false
    only when byte 28 is zero: every other value of the byte, 0xff
    included, gives true. *)
Theorem is_big_is_any_non_zero_flag env message s decoded b data :
  identifier_of message s ->
  decode env s = Ok decoded ->
  index0 decoded = Ok 1 ->
  length decoded = 29%nat ->
  decoded !! 28%nat = Some b ->
  describe env message = Ok data ->
  is_big data = Some (negb (byte_val b =? 0)).
Proof.
  intros [media [Hsel Hid]] Hdec Hidx Hlen Hb.
  rewrite (describe_identifier env message media Hsel), Hid.
  destruct (initial_data_meta media) as (fname & fsize & mime & dt & Hmeta).
  rewrite Hmeta.
  rewrite (decode_photo_location env s decoded fname fsize mime dt Hdec Hidx Hlen).
  intros [= <-]. cbn [is_big]. do 2 f_equal.
  unfold int_field. cbn [unpack_field code_size].
  rewrite (drop_S decoded b 28 Hb). cbn [take le_unsigned].
  rewrite take_0. cbn [le_unsigned].
  replace (byte_val b + 256 * 0) with (byte_val b) by lia.
  pose proof (byte_val_range b). unfold to_signed.
  destruct (Z.ltb_spec (byte_val b) (2 ^ (8 - 1))); [reflexivity |].
  destruct (Z.eqb_spec (byte_val b - 2 ^ 8) 0),
    (Z.eqb_spec (byte_val b) 0); try reflexivity; lia.
Qed.

Lemma is_big_is_any_non_zero_flag_witness :
  describe sample_env (RefStr id_photo_flag_ff) = Ok photo_data /\
  is_big photo_data = Some true.
Proof.
  split; [vm_compute; reflexivity |].
  apply (is_big_is_any_non_zero_flag sample_env (RefStr id_photo_flag_ff)
           id_photo_flag_ff (record_of id_photo_flag_ff) (byte_of_Z 255)
           photo_data).
  - exists (inl id_photo_flag_ff). split; reflexivity.
  - vm_compute. reflexivity.
  - reflexivity.
  - reflexivity.
  - reflexivity.
  - vm_compute. reflexivity.
Defined.
